(** * codemapper: the file-selection and inclusion engine

    A shallow embedding of [src/codemapper.py] (class [CodeMapGenerator])
    and the properties of its folder and file decisions, of the reader
    and of the walk that emits the code map.

    Conventions of the embedding.
    - A Python [str] is a Rocq [string] holding the text's UTF-8 bytes, so
      that [startswith], [endswith], [in], equality and the code-point
      order used by [sorted] are the byte-wise operations.  [str.lower] is
      modelled on the ASCII letters (bytes above 127 are left alone): it
      is [str.lower] on the strings for which [PyStr.isascii] holds, and
      the statements that depend on the lower-casing of other letters say
      so.
    - The names of files and directories, the source folders and the
      error messages are text, that is strings that have a UTF-8
      encoding.  A name whose bytes are not valid UTF-8, which Python
      carries with surrogate escapes and cannot encode when it writes the
      marker line, is outside the embedding; so are the messages
      [generate_map] prints on the console.
    - [pathlib] is the POSIX flavour.  A path relative to the source root
      is the list of its segments ([Path.parts]); the root itself is [[]].
    - Python integers are [Z].
    - A [set] of strings is a [gset string]; [any(... for f in s)] over a
      set is order-independent and modelled by [set_any].
    - Exceptions are explicit: a fallible call returns a [result], and the
      stateful part of [generate_map] runs in the monad [M], whose state
      survives a raise as Python's does. *)

From stdpp Require Import gmap strings list sorting pretty.
From Stdlib Require Import ZArith Lia Ascii.
From Stdlib.Strings Require Import Byte.

Local Open Scope Z_scope.

(** ** Python string operations *)

Module PyStr.

(** The line feed, Python's ['\n']. *)
Definition LF : string := String "010"%char "".
(** The carriage return, Python's ['\r']. *)
Definition CR : string := String "013"%char "".

(** [len(s)] *)
Definition len (s : string) : Z := Z.of_nat (String.length s).

(** [s.startswith(p)] *)
Definition startswith (s p : string) : bool := String.prefix p s.

(** [s.endswith(p)] *)
Fixpoint endswith (s p : string) : bool :=
  String.eqb s p ||
  match s with
  | EmptyString => false
  | String _ s' => endswith s' p
  end.

(** [sub in s] for strings: [sub] occurs in [s] as a substring. *)
Fixpoint contains (sub s : string) : bool :=
  String.prefix sub s ||
  match s with
  | EmptyString => false
  | String _ s' => contains sub s'
  end.

(** [s.replace(a, b)] for one-character [a] and [b]. *)
Fixpoint replace_char (a b : ascii) (s : string) : string :=
  match s with
  | EmptyString => EmptyString
  | String c s' =>
      String (if Ascii.eqb c a then b else c) (replace_char a b s')
  end.

Definition lower_char (c : ascii) : ascii :=
  let n := nat_of_ascii c in
  if (65 <=? n)%nat && (n <=? 90)%nat then ascii_of_nat (n + 32) else c.

(** [s.lower()] on the ASCII letters; a letter outside ASCII, which
    [str.lower] would map as well, is left as it is. *)
Fixpoint lower (s : string) : string :=
  match s with
  | EmptyString => EmptyString
  | String c s' => String (lower_char c) (lower s')
  end.


Fixpoint rfind_from (c : ascii) (s : string) (i last : Z) : Z :=
  match s with
  | EmptyString => last
  | String a s' => rfind_from c s' (i + 1) (if Ascii.eqb a c then i else last)
  end.

(** [s.rfind(c)]: the highest index of [c] in [s], or [-1]. *)
Definition rfind (c : ascii) (s : string) : Z := rfind_from c s 0 (-1).

(** [s[i:]] for [0 <= i]. *)
Fixpoint drop (n : nat) (s : string) : string :=
  match n, s with
  | O, _ => s
  | S n', String _ s' => drop n' s'
  | S _, EmptyString => EmptyString
  end.

(** [s.split(c)] for a one-character separator. *)
Fixpoint split (c : ascii) (s : string) : list string :=
  match s with
  | EmptyString => [EmptyString]
  | String a s' =>
      if Ascii.eqb a c then EmptyString :: split c s'
      else match split c s' with
           | [] => [String a EmptyString]
           | h :: t => String a h :: t
           end
  end.

(** [x in l] for a list of strings. *)
Definition in_list (x : string) (l : list string) : bool :=
  existsb (String.eqb x) l.

(** [x in s] for a set of strings. *)
Definition in_set (x : string) (s : gset string) : bool :=
  bool_decide (x ∈ s).

(** [any(p(f) for f in s)] for a set [s]. *)
Definition set_any (p : string → bool) (s : gset string) : bool :=
  existsb p (elements s).

(** [str(n)] for an integer. *)
Definition of_int (n : Z) : string := pretty n.

End PyStr.

(** ** pathlib, POSIX flavour *)

Module PyPath.

(** A path relative to the source root, as [Path.parts]. *)
Definition rel_path := list string.

(** [Path.name]: the final component, [''] for the empty path. *)
Definition name (p : rel_path) : string := List.last p EmptyString.

(** [str(p)] for a relative path: the segments joined by the separator,
    ['.'] for the empty path. *)
Definition to_str (p : rel_path) : string :=
  match p with
  | [] => "."
  | _ => String.concat "/" p
  end.

Fixpoint leading_slashes (s : string) : nat :=
  match s with
  | String "/"%char s' => S (leading_slashes s')
  | _ => O
  end.

(** [posixpath.splitroot]: exactly two leading slashes are kept as the
    root ['//'], any other positive number collapses to ['/']. *)
Definition root_of (s : string) : string :=
  match leading_slashes s with
  | O => ""
  | 2%nat => "//"
  | _ => "/"
  end.

Definition keep_segment (x : string) : bool :=
  negb (String.eqb x "") && negb (String.eqb x ".").

(** The segments [Path(s)] keeps: empty ones and ['.'] are dropped. *)
Definition parse (s : string) : list string :=
  List.filter keep_segment (PyStr.split "/" s).

(** [str(Path(s))] for a user-supplied string. *)
Definition str_of_Path (s : string) : string :=
  match root_of s, parse s with
  | EmptyString, [] => "."
  | r, ps => r +:+ String.concat "/" ps
  end.

(** [Path.suffix] (Python up to 3.13):
    [i = name.rfind('.'); name[i:] if 0 < i < len(name) - 1 else '']. *)
Definition suffix (p : rel_path) : string :=
  let nm := name p in
  let i := PyStr.rfind "." nm in
  if (0 <? i) && (i <? PyStr.len nm - 1) then PyStr.drop (Z.to_nat i) nm
  else "".

End PyPath.

(** ** Exceptions *)

(** The exceptions the core can meet, all subclasses of [Exception]; each
    carries its [str(e)]. *)
Inductive PyExc : Type :=
| UnicodeDecodeError (msg : string)
| OtherException (msg : string).

Definition exc_str (e : PyExc) : string :=
  match e with
  | UnicodeDecodeError m => m
  | OtherException m => m
  end.

Inductive result (A : Type) : Type :=
| Ok (a : A)
| Raise (e : PyExc).
Arguments Ok {A} a.
Arguments Raise {A} e.

(** ** Configuration and rule set *)

(** [DEFAULT_TEXT_EXTENSIONS] *)
Definition DEFAULT_TEXT_EXTENSIONS : list string :=
  [ ".php"; ".py"; ".js"; ".jsx"; ".ts"; ".tsx"; ".html"; ".css"; ".scss";
    ".json"; ".xml"; ".yml"; ".yaml"; ".md"; ".txt"; ".sql"; ".sh"; ".bash";
    ".java"; ".c"; ".cpp"; ".h"; ".hpp"; ".cs"; ".go"; ".rs"; ".rb"; ".vue";
    ".svelte"; ".astro"; ".env"; ".gitignore"; ".htaccess"; ".conf"; ".ini";
    ".sass"; ".less"; ".lock"; ".toml"; ".dockerfile"; ".editorconfig" ].

(** [COMMON_SKIP_FOLDERS] *)
Definition COMMON_SKIP_FOLDERS : gset string :=
  list_to_set
  [ "node_modules"; ".git"; ".svn"; "__pycache__"; "vendor";
    ".idea"; ".vscode"; "dist"; "build"; ".next"; ".cache";
    "coverage"; ".pytest_cache"; ".mypy_cache"; "venv"; "env";
    "codemapper" ].

(** The configuration dictionary: [None] is an absent key. *)
Record Config : Type := mkConfig {
  cfg_text_extensions : option (list string);
  cfg_src : option (list string);
  cfg_folders : option (list string);
  cfg_files : option (list string);
  cfg_except_folders : option (list string);
  cfg_except_files : option (list string);
  cfg_max_file_size_mb : option Z
}.

(** The empty dictionary, [{}]. *)
Definition empty_config : Config :=
  mkConfig None None None None None None None.

(** The fields [__init__] sets, apart from [stats] (kept in the run's
    state) and [output] (the sink, outside the core). *)
Record CodeMapGenerator : Type := mkGenerator {
  text_extensions : gset string;
  src_folders : list string;
  folders : list string;
  files : list string;
  except_folders : gset string;
  except_files : gset string;
  max_file_size : Z
}.

(** ['codemapper.exe' if is_frozen else 'codemapper.py'] *)
Definition script_name (is_frozen : bool) : string :=
  if is_frozen then "codemapper.exe" else "codemapper.py".

(** [CodeMapGenerator.__init__] *)
Definition init (is_frozen : bool) (config : Config) : CodeMapGenerator :=
  {| text_extensions :=
       list_to_set (default DEFAULT_TEXT_EXTENSIONS (cfg_text_extensions config));
     src_folders := default ["."] (cfg_src config);
     folders := default [] (cfg_folders config);
     files := default [] (cfg_files config);
     except_folders := list_to_set (default [] (cfg_except_folders config));
     except_files :=
       {[ script_name is_frozen ]} ∪
       list_to_set (default [] (cfg_except_files config));
     max_file_size := default 10 (cfg_max_file_size_mb config) * 1024 * 1024 |}.

(** ** The decisions *)

Section Decisions.

Variable self : CodeMapGenerator.

(** [normalize_path] on a user-supplied string. *)
Definition normalize_path (path_str : string) : string :=
  PyStr.replace_char "\" "/" (PyPath.str_of_Path path_str).

(** [normalize_path] on a path relative to the root. *)
Definition normalize_rel (p : PyPath.rel_path) : string :=
  PyStr.replace_char "\" "/" (PyPath.to_str p).

(** [any(skip in parts for skip in COMMON_SKIP_FOLDERS)] *)
Definition has_skip_segment (parts : list string) : bool :=
  PyStr.set_any (λ skip, PyStr.in_list skip parts) COMMON_SKIP_FOLDERS.

(** [should_process_folder], on [rel_path = folder_path.relative_to(base_path)]. *)
Definition should_process_folder (rel_path : PyPath.rel_path) : bool :=
  let rel_str := normalize_rel rel_path in
  let folder_name := PyPath.name rel_path in
  let parts := rel_path in
  if PyStr.in_list "codemapper" parts || PyStr.contains "codemapper/" rel_str
  then false
  else if PyStr.set_any (λ f, PyStr.startswith rel_str (normalize_path f))
                        (except_folders self)
  then false
  else if has_skip_segment parts
  then match folders self with
       | [] => false
       | _ => existsb (λ f, PyStr.startswith rel_str (normalize_path f))
                      (folders self)
       end
  else match folders self with
       | [] => true
       | _ => existsb (λ f, PyStr.startswith rel_str (normalize_path f)
                            || String.eqb rel_str (normalize_path f)
                            || PyStr.in_list folder_name (folders self))
                      (folders self)
       end.

(** [should_process_file], on [rel_path = file_path.relative_to(base_path)]
    and the outcome of [file_path.stat().st_size]. *)
Definition should_process_file (rel_path : PyPath.rel_path)
    (st_size : result Z) : bool :=
  let rel_str := normalize_rel rel_path in
  let filename := PyPath.name rel_path in
  if PyStr.contains "codemapper/" rel_str
     || PyStr.contains "codemapper\" (PyPath.to_str rel_path)
  then false
  else if PyStr.in_set filename (except_files self)
          || PyStr.in_set rel_str (except_files self)
  then false
  else match files self with
       | _ :: _ => PyStr.in_list filename (files self)
                   || PyStr.in_list rel_str (files self)
       | [] =>
           match st_size with
           | Ok size => if size >? max_file_size self then false else true
           | Raise _ => true
           end
       end.

(** [is_text_file] *)
Definition is_text_file (file_path : PyPath.rel_path) : bool :=
  let ext := PyStr.lower (PyPath.suffix file_path) in
  PyStr.in_set ext (text_extensions self).

End Decisions.

(** ** The scanned file system *)

(** What [open(file_path, 'r', ...)] finds: the file's bytes, or an error
    ([PermissionError], [FileNotFoundError], ...) with its message. *)
Inductive FileData : Type :=
| Readable (bytes : list byte)
| Unreadable (msg : string).

(** A file as the walk sees it: the outcome of [file_path.stat().st_size]
    and of opening it. *)
Record FileInfo : Type := mkFile {
  st_size : result Z;
  data : FileData
}.

(** A directory lists its entries in the order [os.scandir] presents them.
    Symbolic links are not modelled. *)
#[local] Unset Elimination Schemes.
Inductive Node : Type :=
| File (info : FileInfo)
| Dir (entries : list (string * Node)).
#[local] Set Elimination Schemes.

(** A regular readable file whose size is the length of its bytes. *)
Definition plain_info (bytes : list byte) : FileInfo :=
  mkFile (Ok (Z.of_nat (length bytes))) (Readable bytes).
Definition plain_file (bytes : list byte) : Node := File (plain_info bytes).

(** The bytes of an ASCII literal. *)
Definition bytes_of (s : string) : list byte := String.list_byte_of_string s.

(** ** Text decoding *)

Module Codec.

Inductive Encoding : Type := UTF8 | Latin1.

Definition byte_val (b : byte) : Z := Z.of_N (Byte.to_N b).

Definition between (lo hi : Z) (b : byte) : bool :=
  (lo <=? byte_val b) && (byte_val b <=? hi).

Definition cont (b : byte) : bool := between 128 191 b.

(** Well-formed UTF-8 as the strict ['utf-8'] codec accepts it: shortest
    form only, no surrogates, nothing above U+10FFFF. *)
Fixpoint valid_utf8 (bs : list byte) : bool :=
  match bs with
  | [] => true
  | b0 :: r0 =>
      if between 0 127 b0 then valid_utf8 r0
      else
        match r0 with
        | [] => false
        | b1 :: r1 =>
            if between 194 223 b0 then cont b1 && valid_utf8 r1
            else
              match r1 with
              | [] => false
              | b2 :: r2 =>
                  if between 224 224 b0
                  then between 160 191 b1 && cont b2 && valid_utf8 r2
                  else if between 225 236 b0 || between 238 239 b0
                  then cont b1 && cont b2 && valid_utf8 r2
                  else if between 237 237 b0
                  then between 128 159 b1 && cont b2 && valid_utf8 r2
                  else
                    match r2 with
                    | [] => false
                    | b3 :: r3 =>
                        if between 240 240 b0
                        then between 144 191 b1 && cont b2 && cont b3
                             && valid_utf8 r3
                        else if between 241 243 b0
                        then cont b1 && cont b2 && cont b3 && valid_utf8 r3
                        else if between 244 244 b0
                        then between 128 143 b1 && cont b2 && cont b3
                             && valid_utf8 r3
                        else false
                    end
              end
        end
  end.

Definition char_of_Z (n : Z) : ascii := ascii_of_N (Z.to_N n).

(** The text of one Latin-1 byte: the code point of the same value. *)
Definition latin1_char (b : byte) : string :=
  let n := byte_val b in
  if n <? 128 then String (char_of_Z n) EmptyString
  else String (char_of_Z (Z.lor 192 (Z.shiftr n 6)))
         (String (char_of_Z (Z.lor 128 (Z.land n 63))) EmptyString).

(** [bytes.decode('latin-1')]: never fails. *)
Fixpoint decode_latin1 (bs : list byte) : string :=
  match bs with
  | [] => EmptyString
  | b :: r => latin1_char b +:+ decode_latin1 r
  end.

(** [bytes.decode('utf-8')] *)
Definition decode_utf8 (bs : list byte) : result string :=
  if valid_utf8 bs then Ok (String.string_of_list_byte bs)
  else Raise (UnicodeDecodeError "'utf-8' codec can't decode bytes").

Definition decode (enc : Encoding) (bs : list byte) : result string :=
  match enc with
  | UTF8 => decode_utf8 bs
  | Latin1 => Ok (decode_latin1 bs)
  end.

(** Universal newlines, the default of a file opened in text mode for
    reading: ['\r\n'] and a lone ['\r'] are returned as ['\n']. *)
Fixpoint translate_newlines (s : string) : string :=
  match s with
  | EmptyString => EmptyString
  | String c s' =>
      if Ascii.eqb c "013"
      then match s' with
           | String "010"%char s'' => String "010" (translate_newlines s'')
           | _ => String "010" (translate_newlines s')
           end
      else String c (translate_newlines s')
  end.

(** [with open(file_path, 'r', encoding=enc) as f: return f.read()] *)
Definition open_read (d : FileData) (enc : Encoding) : result string :=
  match d with
  | Unreadable msg => Raise (OtherException msg)
  | Readable bs =>
      match decode enc bs with
      | Ok s => Ok (translate_newlines s)
      | Raise e => Raise e
      end
  end.

End Codec.

(** ** The state of a run *)

(** [self.stats] *)
Record Stats : Type := mkStats {
  text_files : Z;
  binary_files : Z;
  skipped_files : Z;
  errors : Z;
  total_size : Z
}.

Inductive RecordKind : Type :=
| TextContent (content : string)
| BinaryMarker.

(** One output record: the file's root-relative path and what follows its
    marker line. *)
Record OutputRecord : Type := mkRecord {
  relativePath : PyPath.rel_path;
  kind : RecordKind
}.

(** The state [generate_map] mutates: the text written to [out], and
    [self.stats].  [emitted] is a log of the records written so far, kept
    beside [out] to state properties record by record; [out_is_rendering]
    shows that [out] is exactly its rendering. *)
Record GenState : Type := mkState {
  out : string;
  emitted : list OutputRecord;
  stats : Stats
}.

Definition initial_stats : Stats := mkStats 0 0 0 0 0.
Definition initial_state : GenState := mkState "" [] initial_stats.

(** Computations over the run's state that may raise. *)
Definition M (A : Type) : Type := GenState → result A * GenState.

#[global] Instance M_ret : MRet M := λ A a st, (Ok a, st).
#[global] Instance M_bind : MBind M := λ A B k m st,
  match m st with
  | (Ok a, st') => k a st'
  | (Raise e, st') => (Raise e, st')
  end.

(** A fallible call that does not touch the state. *)
Definition lift {A} (r : result A) : M A := λ st, (r, st).

(** [try: body / except ...:]; the handler answers [None] for an exception
    no clause matches, which then propagates. *)
Definition try_except {A} (body : M A) (handler : PyExc → option (M A)) : M A :=
  λ st,
    match body st with
    | (Ok a, st') => (Ok a, st')
    | (Raise e, st') =>
        match handler e with
        | Some h => h st'
        | None => (Raise e, st')
        end
    end.

(** [for x in l: body(x)] *)
Fixpoint for_each {A} (l : list A) (body : A → M unit) : M unit :=
  match l with
  | [] => mret tt
  | x :: l' => body x ;; for_each l' body
  end.

Definition modify_stats (f : Stats → Stats) : M unit :=
  λ st, (Ok tt, mkState (out st) (emitted st) (f (stats st))).

(** [out.write(s)], for text that has a UTF-8 encoding: the file is
    opened with [encoding='utf-8'], and the text is appended. *)
Definition write (s : string) : M unit :=
  λ st, (Ok tt, mkState (out st +:+ s) (emitted st) (stats st)).

Definition log_record (r : OutputRecord) : M unit :=
  λ st, (Ok tt, mkState (out st) (emitted st ++ [r]) (stats st)).

Definition get_stats : M Stats := λ st, (Ok (stats st), st).

Definition add_text (s : Stats) : Stats :=
  mkStats (text_files s + 1) (binary_files s) (skipped_files s) (errors s) (total_size s).
Definition add_binary (s : Stats) : Stats :=
  mkStats (text_files s) (binary_files s + 1) (skipped_files s) (errors s) (total_size s).
Definition add_skipped (s : Stats) : Stats :=
  mkStats (text_files s) (binary_files s) (skipped_files s + 1) (errors s) (total_size s).
Definition add_error (s : Stats) : Stats :=
  mkStats (text_files s) (binary_files s) (skipped_files s) (errors s + 1) (total_size s).
Definition add_size (n : Z) (s : Stats) : Stats :=
  mkStats (text_files s) (binary_files s) (skipped_files s) (errors s) (total_size s + n).

(** ** Reading and emitting *)

(** The literal [f"[Error: {str(e)}]"]. *)
Definition error_marker (e : PyExc) : string :=
  "[Error: " +:+ exc_str e +:+ "]".

(** [read_file_safely]; [open_] stands for opening [file_path] with the
    given encoding and reading it whole. *)
Definition read_file_safely (open_ : Codec.Encoding → result string) : M string :=
  try_except (lift (open_ Codec.UTF8))
    (λ e, match e with
          | UnicodeDecodeError _ =>
              Some (try_except (lift (open_ Codec.Latin1))
                      (λ e, Some (modify_stats add_error ;;
                                  mret (error_marker e))))
          | _ => Some (modify_stats add_error ;; mret (error_marker e))
          end).

(** What is written between a text file's marker line and its closing
    line: the content, and a line feed when it does not end with one. *)
Definition terminated (content : string) : string :=
  if negb (PyStr.endswith content PyStr.LF) then content +:+ PyStr.LF
  else content.

(** The order of [sorted(files)], on the entries' names. *)
Definition name_le (a b : string * FileInfo) : Prop := String.le a.1 b.1.
#[global] Instance name_le_dec : RelDecision name_le :=
  λ a b, decide (String.le a.1 b.1).

(** [sorted(files)]; the names of a directory listing are distinct. *)
Definition sorted (fs : list (string * FileInfo)) : list (string * FileInfo) :=
  merge_sort name_le fs.

Section Walk.

Variable self : CodeMapGenerator.

(** The body of [for file in sorted(files)]. *)
Definition process_file (root : PyPath.rel_path) (file : string * FileInfo)
  : M unit :=
  let rel_path := root ++ [file.1] in
  let display_path := normalize_rel rel_path in
  if negb (should_process_file self rel_path (st_size file.2))
  then modify_stats add_skipped
  else
    try_except
      (file_size ← lift (st_size file.2);
       modify_stats (add_size file_size))
      (λ _, Some (mret tt)) ;;
    if is_text_file self rel_path then
      write ("--" +:+ display_path +:+ PyStr.LF) ;;
      content ← read_file_safely (Codec.open_read (data file.2));
      write content ;;
      (if negb (PyStr.endswith content PyStr.LF) then write PyStr.LF
       else mret tt) ;;
      write ("----" +:+ PyStr.LF) ;;
      modify_stats add_text ;;
      log_record (mkRecord rel_path (TextContent (terminated content)))
    else
      write ("--" +:+ display_path +:+ PyStr.LF) ;;
      modify_stats add_binary ;;
      log_record (mkRecord rel_path BinaryMarker).

(** The sub-directory names and the files of a listing, as [os.walk]
    splits it. *)
Definition dirs_of (entries : list (string * Node)) : list string :=
  omap (λ e, match e.2 with Dir _ => Some e.1 | File _ => None end) entries.
Definition files_of (entries : list (string * Node))
  : list (string * FileInfo) :=
  omap (λ e, match e.2 with File i => Some (e.1, i) | Dir _ => None end) entries.

(** [os.walk(top)], top-down, with the caller's in-place pruning
    [dirs[:] = [d for d in dirs if keep(root / d)]] applied before the
    walk descends: the triples [(root, dirs, files)] in the order they
    are yielded. *)
Fixpoint os_walk (keep : PyPath.rel_path → bool) (top : PyPath.rel_path)
    (n : Node)
  : list (PyPath.rel_path * list string * list (string * FileInfo)) :=
  match n with
  | File _ => []
  | Dir entries =>
      (top, List.filter (λ d, keep (top ++ [d])) (dirs_of entries),
       files_of entries)
      :: flat_map
           (λ e : string * Node,
              match e.2 with
              | Dir _ =>
                  if keep (top ++ [e.1])
                  then os_walk keep (top ++ [e.1]) e.2
                  else []
              | File _ => []
              end) entries
  end.

(** The loop over [os.walk(src_path)]. *)
Definition scan (tree : Node) : M unit :=
  for_each (os_walk (should_process_folder self) [] tree)
    (λ '(root, _, fs),
       if negb (should_process_folder self root) then mret tt
       else for_each (sorted fs) (process_file root)).

(** The summary line. *)
Definition summary_line (s : Stats) : string :=
  "Text:" +:+ PyStr.of_int (text_files s) +:+
  " Binary:" +:+ PyStr.of_int (binary_files s) +:+
  " Skipped:" +:+ PyStr.of_int (skipped_files s) +:+ PyStr.LF.

(** The body of [with open(self.output, 'w') as out] in [generate_map].
    [now] is the formatted time stamp; [fs] resolves a source folder to
    what is found there, [None] when nothing exists at that path. *)
Definition generate_map (fs : string → option Node) (now : string) : M unit :=
  write ("MAP: Generated " +:+ now +:+ PyStr.LF) ;;
  for_each (src_folders self)
    (λ src, match fs src with
            | None => mret tt
            | Some (File _) => mret tt
            | Some (Dir entries) => scan (Dir entries)
            end) ;;
  write ("--SUMMARY" +:+ PyStr.LF) ;;
  s ← get_stats;
  write (summary_line s).

End Walk.

(** A run from the state [__init__] leaves. *)
Definition run (self : CodeMapGenerator) (fs : string → option Node)
    (now : string) : result unit * GenState :=
  generate_map self fs now initial_state.

(** The example tree of the specification. *)
Definition example_tree : Node :=
  Dir [ ("b.png", plain_file [x89; x50; x4e; x47]);
        ("node_modules", Dir [ ("x.js", plain_file (bytes_of "let x;")) ]);
        ("a.txt", plain_file (bytes_of "hello")) ].

Definition example_fs (src : string) : option Node :=
  if String.eqb src "." then Some example_tree else None.

Definition example_now : string := "2024-01-01 00:00:00".

(** The configuration [main] builds when the whole code base is scanned
    with default settings: [{'src': ['.'], 'folders': [], 'files': []}]. *)
Definition default_config : Config :=
  mkConfig None (Some ["."]) (Some []) (Some []) None None None.

(** A file system with one source folder, ['.']. *)
Definition single_root (tree : Node) (src : string) : option Node :=
  if String.eqb src "." then Some tree else None.

(** [--folders] alone. *)
Definition folders_config (fs : list string) : Config :=
  mkConfig None (Some ["."]) (Some fs) None None None None.





Definition big_tree : Node :=
  Dir [ ("big.txt", plain_file (bytes_of "hello")) ].


(** ** Vocabulary of the statements *)

(** The files the three counters account for. *)
Definition counted (s : Stats) : Z :=
  text_files s + binary_files s + skipped_files s.

Section Vocabulary.

Variable self : CodeMapGenerator.

(** The relative path is covered by an entry of [except_folders]. *)
Definition excluded (rel : PyPath.rel_path) : Prop :=
  ∃ f, f ∈ except_folders self
       ∧ PyStr.startswith (normalize_rel rel) (normalize_path f) = true.

(** The relative path is covered by an entry of [folders]. *)
Definition included (rel : PyPath.rel_path) : Prop :=
  ∃ f, f ∈ folders self
       ∧ PyStr.startswith (normalize_rel rel) (normalize_path f) = true.

(** Rule a fires: the tool's own directory. *)
Definition own_directory (rel : PyPath.rel_path) : Prop :=
  "codemapper" ∈ rel ∨ PyStr.contains "codemapper/" (normalize_rel rel) = true.

(** A directory is reached when it and every directory above it, below
    the root, pass the folder decision. *)
Definition descended (dir : PyPath.rel_path) : Prop :=
  should_process_folder self dir = true
  ∧ ∀ p, p ≠ [] → p `prefix_of` dir → should_process_folder self p = true.

(** Rule a of the file decision fires: the file is under the tool's
    own directory. *)
Definition inside_own_directory (rel : PyPath.rel_path) : Prop :=
  PyStr.contains "codemapper/" (normalize_rel rel) = true
  ∨ PyStr.contains "codemapper\" (PyPath.to_str rel) = true.

(** The file's name or relative path is in [except_files]. *)
Definition file_excluded (rel : PyPath.rel_path) : Prop :=
  PyPath.name rel ∈ except_files self ∨ normalize_rel rel ∈ except_files self.

(** The file's name or relative path is in [files]. *)
Definition file_listed (rel : PyPath.rel_path) : Prop :=
  PyPath.name rel ∈ files self ∨ normalize_rel rel ∈ files self.

(** The text one record occupies in [out]. *)
Definition render (r : OutputRecord) : string :=
  "--" +:+ normalize_rel (relativePath r) +:+ PyStr.LF +:+
  match kind r with
  | TextContent c => c +:+ "----" +:+ PyStr.LF
  | BinaryMarker => ""
  end.

Fixpoint render_all (rs : list OutputRecord) : string :=
  match rs with
  | [] => ""
  | r :: rs' => render r +:+ render_all rs'
  end.

(** The text of a readable file: its bytes decoded as UTF-8, or as
    Latin-1 when they are not valid UTF-8, with the line endings
    translated as text mode does. *)
Definition decoded (bs : list byte) : string :=
  if Codec.valid_utf8 bs then String.string_of_list_byte bs
  else Codec.decode_latin1 bs.
Definition text_of (bs : list byte) : string :=
  Codec.translate_newlines (decoded bs).

(** What [read_file_safely] returns, and whether it counts an error. *)
Definition read_outcome (open_ : Codec.Encoding → result string)
  : string * bool :=
  match open_ Codec.UTF8 with
  | Ok s => (s, false)
  | Raise (UnicodeDecodeError _) =>
      match open_ Codec.Latin1 with
      | Ok s => (s, false)
      | Raise e => (error_marker e, true)
      end
  | Raise e => (error_marker e, true)
  end.

(** The records one iteration of the file loop emits: none or one. *)
Definition file_records (root : PyPath.rel_path) (file : string * FileInfo)
  : list OutputRecord :=
  let rel_path := root ++ [file.1] in
  if should_process_file self rel_path (st_size file.2) then
    if is_text_file self rel_path then
      [mkRecord rel_path
         (TextContent
            (terminated (read_outcome (Codec.open_read (data file.2))).1))]
    else [mkRecord rel_path BinaryMarker]
  else [].

(** The statistics after one iteration of the file loop. *)
Definition file_stats (root : PyPath.rel_path) (file : string * FileInfo)
    (s : Stats) : Stats :=
  let rel_path := root ++ [file.1] in
  if should_process_file self rel_path (st_size file.2) then
    let s1 := match st_size file.2 with
              | Ok n => add_size n s
              | Raise _ => s
              end in
    if is_text_file self rel_path then
      add_text
        (if (read_outcome (Codec.open_read (data file.2))).2
         then add_error s1 else s1)
    else add_binary s1
  else add_skipped s.

(** The files the loops reach, in order, each with the directory it is
    listed in: the sorted files of every yielded directory that passes
    the folder decision. *)
Definition dir_visits
    (t : PyPath.rel_path * list string * list (string * FileInfo))
  : list (PyPath.rel_path * (string * FileInfo)) :=
  if should_process_folder self t.1.1
  then List.map (pair t.1.1) (sorted t.2)
  else [].

Definition visited (tree : Node)
  : list (PyPath.rel_path * (string * FileInfo)) :=
  flat_map dir_visits (os_walk (should_process_folder self) [] tree).

Definition records_of (vs : list (PyPath.rel_path * (string * FileInfo)))
  : list OutputRecord :=
  flat_map (λ v, file_records v.1 v.2) vs.

Definition stats_after (vs : list (PyPath.rel_path * (string * FileInfo)))
    (s : Stats) : Stats :=
  fold_left (λ s v, file_stats v.1 v.2 s) vs s.

(** The files reached under one source folder: none when it does not
    resolve to a directory. *)
Definition root_visits (fs : string → option Node) (src : string)
  : list (PyPath.rel_path * (string * FileInfo)) :=
  match fs src with
  | Some (Dir entries) => visited (Dir entries)
  | _ => []
  end.

(** The files a whole run reaches, source folder after source folder. *)
Definition all_visited (fs : string → option Node)
  : list (PyPath.rel_path * (string * FileInfo)) :=
  flat_map (root_visits fs) (src_folders self).

(** The first line of the map. *)
Definition header (now : string) : string :=
  "MAP: Generated " +:+ now +:+ PyStr.LF.

(** The number of files under a node, at any depth. *)
Fixpoint count_files (n : Node) : nat :=
  match n with
  | File _ => 1%nat
  | Dir entries => sum_list_with (λ e : string * Node, count_files e.2) entries
  end.

End Vocabulary.

(** ** Files of a tree *)

(** [file_at n path info]: following [path] from the directory [n] leads
    to a file entry with the given [info]. *)
Inductive file_at : Node → PyPath.rel_path → FileInfo → Prop :=
| file_here entries name info :
    (name, File info) ∈ entries → file_at (Dir entries) [name] info
| file_below entries d sub path info :
    (d, Dir sub) ∈ entries → file_at (Dir sub) path info →
    file_at (Dir entries) (d :: path) info.

(** The source folder [src] of the run resolves to a directory that holds
    a file at [path]. *)
Definition scanned_file (self : CodeMapGenerator) (fs : string → option Node)
    (path : PyPath.rel_path) (info : FileInfo) : Prop :=
  ∃ src entries,
    src ∈ src_folders self ∧ fs src = Some (Dir entries)
    ∧ file_at (Dir entries) path info.

(** ** A small project *)

Definition project_tree : Node :=
  Dir [ ("README.md", plain_file (bytes_of "# demo"));
        ("app",
         Dir [ ("main.py", plain_file (bytes_of "print(1)"));
               ("models",
                Dir [ ("user.py", plain_file (bytes_of "class U: pass")) ]) ]);
        ("apple", Dir [ ("pie.txt", plain_file (bytes_of "pie")) ]);
        ("tests", Dir [ ("t.py", plain_file (bytes_of "assert 1")) ]);
        ("mycodemapper", Dir [ ("x.py", plain_file (bytes_of "x = 1")) ]);
        ("logo.PNG", plain_file [x89; x50]) ].

(** [--files] alone, and [--except-folders] with [--except-files]. *)
Definition files_config (fs : list string) : Config :=
  mkConfig None (Some ["."]) None (Some fs) None None None.
Definition except_config (folders files : list string) : Config :=
  mkConfig None (Some ["."]) None None (Some folders) (Some files) None.

(** [--extensions py,.TXT]: entries without the dot, or not in lower
    case. *)
Definition odd_extensions_config : Config :=
  mkConfig (Some ["py"; ".TXT"]) (Some ["."]) None None None None None.

(** ** Several source folders *)

(** The generator with another list of source folders. *)
Definition with_src (self : CodeMapGenerator) (srcs : list string)
  : CodeMapGenerator :=
  mkGenerator (text_extensions self) srcs (folders self) (files self)
    (except_folders self) (except_files self) (max_file_size self).

(** Counters added field by field. *)
Definition stats_add (a b : Stats) : Stats :=
  mkStats (text_files a + text_files b) (binary_files a + binary_files b)
    (skipped_files a + skipped_files b) (errors a + errors b)
    (total_size a + total_size b).


(** Two source folders. *)
Definition two_roots_fs (src : string) : option Node :=
  if String.eqb src "one" then Some big_tree
  else if String.eqb src "two" then Some example_tree
  else None.

(** A directory with a file that cannot be read and one that cannot be
    stat'ed. *)
Definition faulty_tree : Node :=
  Dir [ ("locked.txt",
         File (mkFile (Ok 7) (Unreadable "Permission denied")));
        ("gone.py",
         File (mkFile (Raise (OtherException "No such file"))
                 (Readable (bytes_of "pass")))) ].

(** ** The command line and the configuration files *)

(** The result of [parser.parse_args()]: [--src] has [action='append']
    and is [None] or the list of the values given; the others are [None]
    or the string given. *)
Record Args : Type := mkArgs {
  arg_src : option (list string);
  arg_folders : option string;
  arg_files : option string;
  arg_except_folders : option string;
  arg_except_files : option string;
  arg_output : option string;
  arg_extensions : option string;
  arg_config : option string;
  arg_savetoconfig : option string
}.

(** The [config] dictionary: the keys the generator reads, each present
    or absent, and ['output']. *)
Record ConfigDict : Type := mkConfigDict {
  dict_config : Config;
  dict_output : option string
}.

(** [if arg:] on an optional string, an empty string being false. *)
Definition given (arg : option string) : option string :=
  match arg with
  | Some s => if String.eqb s "" then None else Some s
  | None => None
  end.

(** [arg.split(',')] under [if arg:]. *)
Definition comma_list (arg : option string) : option (list string) :=
  match given arg with
  | Some s => Some (PyStr.split "," s)
  | None => None
  end.

(** [args.src] under [if args.src:], else [['.']]. *)
Definition src_or_default (arg : option (list string)) : list string :=
  match arg with
  | Some (x :: l) => x :: l
  | _ => ["."]
  end.

(** The branch of [main] that builds the configuration from the
    arguments. *)
Definition config_from_args (args : Args) : ConfigDict :=
  {| dict_config :=
       {| cfg_text_extensions := comma_list (arg_extensions args);
          cfg_src := Some (src_or_default (arg_src args));
          cfg_folders := comma_list (arg_folders args);
          cfg_files := comma_list (arg_files args);
          cfg_except_folders := comma_list (arg_except_folders args);
          cfg_except_files := comma_list (arg_except_files args);
          cfg_max_file_size_mb := None |};
     dict_output := given (arg_output args) |}.

(** A file of the configuration folder: one that [json.load] reads as a
    dictionary of the tool's keys, or one on which opening or loading
    raises. *)
Inductive StoredFile : Type :=
| JsonDict (d : ConfigDict)
| Broken (e : PyExc).

(** The configuration folder, by file name. *)
Abbreviation ConfigDir := (gmap string StoredFile).

(** A call that returns, or leaves through [sys.exit]. *)
Inductive Outcome (A : Type) : Type :=
| Returned (a : A)
| SysExit (code : Z).
Arguments Returned {A} a.
Arguments SysExit {A} code.

(** The loop [for config_path in config_paths] of [load_config]: the
    first path that exists is loaded, and the process exits when loading
    it fails. *)
Fixpoint load_first (dir : ConfigDir) (config_paths : list string)
  : Outcome (option ConfigDict) :=
  match config_paths with
  | [] => Returned None
  | config_path :: rest =>
      match dir !! config_path with
      | Some (JsonDict d) => Returned (Some d)
      | Some (Broken _) => SysExit 1
      | None => load_first dir rest
      end
  end.

(** [load_config]: the name with [.json] first, then the bare name. *)
Definition load_config (dir : ConfigDir) (config_name : string)
  : Outcome (option ConfigDict) :=
  load_first dir [config_name +:+ ".json"; config_name].

(** [check_default_config] *)
Definition check_default_config (dir : ConfigDir) : option ConfigDict :=
  match dir !! "default.json" with
  | Some (JsonDict d) => Some d
  | Some (Broken _) => None
  | None => None
  end.

(** The dictionary [save_config] builds; the [isinstance] tests are
    decided by the types of the arguments. *)
Definition saved_dict (args : Args) : ConfigDict :=
  {| dict_config :=
       {| cfg_text_extensions := comma_list (arg_extensions args);
          cfg_src := Some (match arg_src args with
                           | Some (x :: l) => x :: l
                           | _ => ["."]
                           end);
          cfg_folders := comma_list (arg_folders args);
          cfg_files := comma_list (arg_files args);
          cfg_except_folders := comma_list (arg_except_folders args);
          cfg_except_files := comma_list (arg_except_files args);
          cfg_max_file_size_mb := None |};
     dict_output := given (arg_output args) |}.

(** The file name [save_config] writes for a configuration name. *)
Definition saved_name (config_name : option string) : string :=
  match given config_name with
  | Some n => n
  | None => "default"
  end.

(** [save_config]; [open_w] tells whether the file can be opened for
    writing, the exception of a failure being passed on. *)
Definition save_config (open_w : string → result unit) (dir : ConfigDir)
    (args : Args) (config_name : option string)
  : result (ConfigDir * ConfigDict) :=
  let config_path := saved_name config_name +:+ ".json" in
  let config := saved_dict args in
  match open_w config_path with
  | Ok _ => Ok (<[config_path := JsonDict config]> dir, config)
  | Raise e => Raise e
  end.

(** [codemapper.exe --src ./app --folders models,controllers] *)
Definition example_args : Args :=
  mkArgs (Some ["./app"]) (Some "models,controllers") None None None None
    None None None.

(** ** Path strings *)

(** A path segment as a file system gives it, free of separators of
    either style: not empty, not ['.']. *)
Definition clean_segment (s : string) : Prop :=
  s ≠ "" ∧ s ≠ "." ∧ PyStr.contains "/" s = false
  ∧ PyStr.contains "\" s = false.

(** ** Counting records *)

(** The record carries content. *)
Definition is_text_record (r : OutputRecord) : bool :=
  match kind r with
  | TextContent _ => true
  | BinaryMarker => false
  end.

(** The numbers of records with content and of markers in a list. *)
Definition text_records (rs : list OutputRecord) : Z :=
  Z.of_nat (length (List.filter is_text_record rs)).
Definition marker_records (rs : list OutputRecord) : Z :=
  Z.of_nat (length (List.filter (λ r, negb (is_text_record r)) rs)).

(** ** Well-formed trees *)

(** A directory lists each name once, at every depth. *)
#[local] Unset Elimination Schemes.
#[local] Set Elimination Schemes.

Definition visits_from (self : CodeMapGenerator) (top : PyPath.rel_path)
    (n : Node) : list (PyPath.rel_path * (string * FileInfo)) :=
  flat_map (dir_visits self) (os_walk (should_process_folder self) top n).

(** ** The files of the tree, pruning apart *)

(** Every file under a directory, at any depth, with the directory it is
    listed in: the tree as it is, no decision taken. *)
Fixpoint all_files (top : PyPath.rel_path) (n : Node)
  : list (PyPath.rel_path * (string * FileInfo)) :=
  match n with
  | File _ => []
  | Dir entries =>
      List.map (pair top) (files_of entries)
      ++ flat_map
           (λ e : string * Node,
              match e.2 with
              | Dir _ => all_files (top ++ [e.1]) e.2
              | File _ => []
              end) entries
  end.

(** The directories from [dir] up to, and without, the source folder. *)
Definition upward (dir : PyPath.rel_path) : list PyPath.rel_path :=
  List.map (λ k, take k dir) (seq 1 (length dir)).

(** The folder decision lets the walk reach [dir]: it passes, and so does
    every directory above it below the source folder. *)
Definition reached (self : CodeMapGenerator) (dir : PyPath.rel_path) : bool :=
  should_process_folder self dir
  && forallb (should_process_folder self) (upward dir).

(** All the files under the source folders that resolve to a directory. *)
Definition source_files (self : CodeMapGenerator) (fs : string → option Node)
  : list (PyPath.rel_path * (string * FileInfo)) :=
  flat_map (λ src, match fs src with
                   | Some (Dir entries) => all_files [] (Dir entries)
                   | _ => []
                   end) (src_folders self).


(** [--except-folders .] *)
Definition except_root_config : Config :=
  mkConfig None (Some ["."]) None None (Some ["."]) None None.
(** * Properties *)

(** ** Membership tests *)

Lemma in_list_spec (x : string) (l : list string) :
  PyStr.in_list x l = true ↔ x ∈ l.
Proof.
  unfold PyStr.in_list. rewrite existsb_exists. split.
  - intros (y & Hy & Heq). apply String.eqb_eq in Heq. subst y.
    by apply list_elem_of_In.
  - intros Hx. exists x. split; [by apply list_elem_of_In|apply String.eqb_refl].
Qed.

Lemma in_set_spec (x : string) (s : gset string) :
  PyStr.in_set x s = true ↔ x ∈ s.
Proof. unfold PyStr.in_set. apply bool_decide_eq_true. Qed.

Lemma set_any_spec (p : string → bool) (s : gset string) :
  PyStr.set_any p s = true ↔ ∃ f, f ∈ s ∧ p f = true.
Proof.
  unfold PyStr.set_any. rewrite existsb_exists. split.
  - intros (f & Hf & Hp). exists f. split; [|done].
    apply elem_of_elements. by apply list_elem_of_In.
  - intros (f & Hf & Hp). exists f. split; [|done].
    apply list_elem_of_In. by apply elem_of_elements.
Qed.

Lemma existsb_spec {A} (p : A → bool) (l : list A) :
  existsb p l = true ↔ ∃ f, f ∈ l ∧ p f = true.
Proof.
  rewrite existsb_exists. split; intros (f & Hf & Hp); exists f;
    (split; [by apply list_elem_of_In|done]).
Qed.

(** ** Strings *)

Lemma str_app_nil_r (s : string) : s +:+ "" = s.
Proof.
  induction s as [|c s IH]; [reflexivity|].
  change (String c (s +:+ "") = String c s). by rewrite IH.
Qed.

Lemma str_app_assoc (s t u : string) : (s +:+ t) +:+ u = s +:+ (t +:+ u).
Proof.
  induction s as [|c s IH]; [reflexivity|].
  change (String c ((s +:+ t) +:+ u) = String c (s +:+ (t +:+ u))).
  by rewrite IH.
Qed.





(** ** The folder decision, rule by rule *)

Section FolderRules.

Variable self : CodeMapGenerator.

Lemma folder_rule_a rel :
  own_directory rel → should_process_folder self rel = false.
Proof.
  intros H. unfold should_process_folder.
  assert (PyStr.in_list "codemapper" rel
          || PyStr.contains "codemapper/" (normalize_rel rel) = true) as ->;
    [|reflexivity].
  apply orb_true_iff. destruct H as [H|H]; [left|right]; [|exact H].
  exact (proj2 (in_list_spec _ _) H).
Qed.

Lemma folder_rule_b rel :
  excluded self rel → should_process_folder self rel = false.
Proof.
  intros H. unfold should_process_folder.
  destruct (_ || _); [reflexivity|].
  unfold excluded in H. apply (proj2 (set_any_spec _ _)) in H.
  rewrite H. reflexivity.
Qed.



End FolderRules.

(** ** The file decision, rule by rule *)

Section FileRules.

Variable self : CodeMapGenerator.

Lemma file_rule_b rel size :
  file_excluded self rel → should_process_file self rel size = false.
Proof.
  intros H. unfold should_process_file.
  destruct (_ || _); [reflexivity|].
  assert (PyStr.in_set (PyPath.name rel) (except_files self)
          || PyStr.in_set (normalize_rel rel) (except_files self) = true) as ->;
    [|reflexivity].
  apply orb_true_iff.
  destruct H as [H|H]; [left|right]; exact (proj2 (in_set_spec _ _) H).
Qed.


End FileRules.

(** ** The run as a function of the file system *)

Ltac run_M :=
  cbv [mbind M_bind mret M_ret write modify_stats log_record try_except lift
       get_stats out emitted stats].

Lemma render_all_app (a b : list OutputRecord) :
  render_all (a ++ b) = render_all a +:+ render_all b.
Proof.
  induction a as [|r a IH]; [reflexivity|].
  cbn [app render_all]. by rewrite IH, str_app_assoc.
Qed.

Lemma read_file_safely_spec open_ o e s :
  read_file_safely open_ (mkState o e s)
  = (Ok (read_outcome open_).1,
     mkState o e (if (read_outcome open_).2 then add_error s else s)).
Proof.
  unfold read_file_safely, read_outcome. run_M.
  destruct (open_ Codec.UTF8) as [c|[m|m]]; try reflexivity.
  destruct (open_ Codec.Latin1) as [c|e']; reflexivity.
Qed.

Section RunSpec.

Variable self : CodeMapGenerator.

Lemma process_file_spec root file o e s :
  process_file self root file (mkState o e s)
  = (Ok tt,
     mkState (o +:+ render_all (file_records self root file))
             (e ++ file_records self root file)
             (file_stats self root file s)).
Proof.
  unfold process_file, file_records, file_stats.
  destruct (should_process_file self (root ++ [file.1]) (st_size file.2));
    cbn [negb].
  2:{ run_M. cbn [render_all]. by rewrite str_app_nil_r, app_nil_r. }
  destruct (is_text_file self (root ++ [file.1])).
  2:{ destruct (st_size file.2); run_M;
      cbn [render_all]; unfold render; cbn [relativePath kind];
      by rewrite ?str_app_assoc, ?str_app_nil_r. }
  destruct (st_size file.2); run_M; rewrite read_file_safely_spec;
    destruct (read_outcome (Codec.open_read (data file.2))) as [c b];
    cbn [fst snd]; unfold terminated;
    destruct (PyStr.endswith c PyStr.LF); cbn [negb];
    cbn [render_all]; unfold render; cbn [relativePath kind];
    by rewrite ?str_app_assoc, ?str_app_nil_r.
Qed.

Lemma for_each_spec {A} (l : list A) (body : A → M unit)
    (recs : A → list OutputRecord) (upd : A → Stats → Stats) :
  (∀ x o e s, body x (mkState o e s)
              = (Ok tt, mkState (o +:+ render_all (recs x)) (e ++ recs x)
                                (upd x s))) →
  ∀ o e s, for_each l body (mkState o e s)
           = (Ok tt, mkState (o +:+ render_all (flat_map recs l))
                             (e ++ flat_map recs l)
                             (fold_left (λ s x, upd x s) l s)).
Proof.
  intros Hbody. induction l as [|x l IH]; intros o e s.
  - cbn. run_M. by rewrite str_app_nil_r, app_nil_r.
  - cbn [for_each flat_map fold_left].
    change (for_each l body (body x (mkState o e s)).2 = _) || idtac.
    unfold mbind, M_bind. rewrite Hbody, IH.
    by rewrite render_all_app, str_app_assoc, app_assoc.
Qed.

Lemma records_of_app a b :
  records_of self (a ++ b) = records_of self a ++ records_of self b.
Proof. unfold records_of. apply flat_map_app. Qed.

Lemma stats_after_app a b s :
  stats_after self (a ++ b) s = stats_after self b (stats_after self a s).
Proof. unfold stats_after. apply fold_left_app. Qed.

Lemma records_of_dir root fs :
  records_of self (List.map (pair root) fs)
  = flat_map (file_records self root) fs.
Proof.
  unfold records_of. induction fs as [|f fs IH]; [reflexivity|].
  cbn [List.map flat_map fst snd]. by rewrite IH.
Qed.

Lemma stats_after_dir root fs s :
  stats_after self (List.map (pair root) fs) s
  = fold_left (λ s f, file_stats self root f s) fs s.
Proof.
  unfold stats_after. revert s.
  induction fs as [|f fs IH]; intros s; [reflexivity|].
  cbn [List.map fold_left fst snd]. by rewrite IH.
Qed.

Lemma records_of_flat {A}
    (g : A → list (PyPath.rel_path * (string * FileInfo))) (l : list A) :
  flat_map (λ x, records_of self (g x)) l
  = records_of self (flat_map g l).
Proof.
  induction l as [|x l IH]; [reflexivity|].
  cbn [flat_map]. by rewrite records_of_app, IH.
Qed.

Lemma stats_after_flat {A}
    (g : A → list (PyPath.rel_path * (string * FileInfo))) (l : list A) s :
  fold_left (λ s x, stats_after self (g x) s) l s
  = stats_after self (flat_map g l) s.
Proof.
  revert s. induction l as [|x l IH]; intros s; [reflexivity|].
  cbn [flat_map fold_left]. by rewrite stats_after_app, IH.
Qed.

Lemma scan_spec tree o e s :
  scan self tree (mkState o e s)
  = (Ok tt,
     mkState (o +:+ render_all (records_of self (visited self tree)))
             (e ++ records_of self (visited self tree))
             (stats_after self (visited self tree) s)).
Proof.
  unfold scan, visited.
  rewrite (for_each_spec _ _
             (λ t, records_of self (dir_visits self t))
             (λ t s, stats_after self (dir_visits self t) s)).
  - by rewrite (records_of_flat (dir_visits self)),
               (stats_after_flat (dir_visits self)).
  - intros [[root ds] fs] o' e' s'. unfold dir_visits. cbn [fst snd].
    destruct (should_process_folder self root); cbn [negb].
    + rewrite (for_each_spec _ _ (file_records self root)
                 (file_stats self root)).
      * by rewrite records_of_dir, stats_after_dir.
      * intros. apply process_file_spec.
    + run_M. cbn. by rewrite str_app_nil_r, app_nil_r.
Qed.

Lemma generate_map_spec fs now o e s :
  generate_map self fs now (mkState o e s)
  = (Ok tt,
     mkState (o +:+ header now
                +:+ render_all (records_of self (all_visited self fs))
                +:+ "--SUMMARY" +:+ PyStr.LF
                +:+ summary_line (stats_after self (all_visited self fs) s))
             (e ++ records_of self (all_visited self fs))
             (stats_after self (all_visited self fs) s)).
Proof.
  unfold generate_map, all_visited.
  unfold mbind at 1. unfold M_bind at 1. unfold write at 1.
  cbn [out emitted stats].
  unfold mbind at 1. unfold M_bind at 1.
  rewrite (for_each_spec _ _
             (λ src, records_of self (root_visits self fs src))
             (λ src s, stats_after self (root_visits self fs src) s)).
  - rewrite (records_of_flat (root_visits self fs)),
            (stats_after_flat (root_visits self fs)).
    run_M. unfold header. by rewrite ?str_app_assoc.
  - intros src o' e' s'. unfold root_visits.
    destruct (fs src) as [[info|entries]|].
    + run_M. cbn. by rewrite str_app_nil_r, app_nil_r.
    + apply scan_spec.
    + run_M. cbn. by rewrite str_app_nil_r, app_nil_r.
Qed.

End RunSpec.

(** ** What the walk reaches *)

Lemma Node_induction (P : Node → Prop) :
  (∀ info, P (File info)) →
  (∀ entries, Forall (λ e, P e.2) entries → P (Dir entries)) →
  ∀ n, P n.
Proof.
  intros Hf Hd. fix IH 1. intros [info|entries]; [apply Hf|].
  apply Hd. induction entries as [|e es IHes]; constructor; [apply IH|exact IHes].
Qed.

(** Every directory the walk yields lies under [top], and each directory
    on the way down to it was kept. *)
Lemma os_walk_kept keep n : ∀ top t,
  t ∈ os_walk keep top n →
  ∃ suffix, t.1.1 = top ++ suffix
            ∧ ∀ p, p ≠ [] → p `prefix_of` suffix → keep (top ++ p) = true.
Proof.
  induction n as [info|entries IH] using Node_induction; intros top t Ht.
  { cbn in Ht. by apply elem_of_nil in Ht. }
  cbn [os_walk] in Ht. apply elem_of_cons in Ht as [->|Ht].
  { exists []. cbn [fst]. split; [by rewrite app_nil_r|].
    intros p Hp Hpre. apply prefix_nil_inv in Hpre. congruence. }
  apply list_elem_of_In, in_flat_map in Ht as ([d child] & Hin & Ht).
  apply list_elem_of_In in Hin, Ht.
  rewrite Forall_forall in IH. specialize (IH _ Hin). cbn [fst snd] in *.
  destruct child as [info|es]; [by apply elem_of_nil in Ht|].
  destruct (keep (top ++ [d])) eqn:Hk; [|by apply elem_of_nil in Ht].
  destruct (IH _ _ Ht) as (suf & Heq & Hall).
  exists (d :: suf). split.
  { rewrite Heq. by rewrite <- app_assoc. }
  intros p Hp [q Hq]. destruct p as [|d' p']; [congruence|].
  cbn in Hq. injection Hq as <- Hq.
  destruct p' as [|x p'']; [exact Hk|].
  replace (top ++ d :: x :: p'') with ((top ++ [d]) ++ x :: p'')
    by (by rewrite <- app_assoc).
  apply Hall; [congruence|]. exists q. exact Hq.
Qed.

Section Reach.

Variable self : CodeMapGenerator.

Lemma sorted_elem (fs : list (string * FileInfo)) f :
  f ∈ sorted fs ↔ f ∈ fs.
Proof. unfold sorted. by rewrite merge_sort_Permutation. Qed.

Lemma visited_descended tree v :
  v ∈ visited self tree → descended self v.1.
Proof.
  unfold visited. intros Hv.
  apply list_elem_of_In, in_flat_map in Hv as (t & Ht & Hv).
  apply list_elem_of_In in Ht, Hv.
  unfold dir_visits in Hv.
  destruct (should_process_folder self t.1.1) eqn:Hd;
    [|by apply elem_of_nil in Hv].
  apply list_elem_of_fmap in Hv as (f & -> & _). cbn [fst].
  split; [exact Hd|].
  destruct (os_walk_kept _ _ _ _ Ht) as (suf & Heq & Hall).
  intros p Hp Hpre.
  exact (Hall p Hp (eq_ind _ (λ x, p `prefix_of` x) Hpre _ Heq)).
Qed.

Lemma all_visited_descended fs v :
  v ∈ all_visited self fs → descended self v.1.
Proof.
  unfold all_visited. intros Hv.
  apply list_elem_of_In, in_flat_map in Hv as (src & _ & Hv).
  apply list_elem_of_In in Hv. unfold root_visits in Hv.
  destruct (fs src) as [[info|entries]|]; try by apply elem_of_nil in Hv.
  by apply visited_descended in Hv.
Qed.

Lemma records_of_elem vs r :
  r ∈ records_of self vs →
  ∃ v, v ∈ vs ∧ r ∈ file_records self v.1 v.2.
Proof.
  unfold records_of. intros Hr.
  apply list_elem_of_In, in_flat_map in Hr as (v & Hv & Hr).
  exists v. split; by apply list_elem_of_In.
Qed.

Lemma file_records_elem root file r :
  r ∈ file_records self root file →
  should_process_file self (root ++ [file.1]) (st_size file.2) = true
  ∧ relativePath r = root ++ [file.1]
  ∧ kind r = if is_text_file self (root ++ [file.1])
             then TextContent
                    (terminated
                       (read_outcome (Codec.open_read (data file.2))).1)
             else BinaryMarker.
Proof.
  unfold file_records.
  destruct (should_process_file self (root ++ [file.1]) (st_size file.2));
    [|intros H; by apply elem_of_nil in H].
  destruct (is_text_file self (root ++ [file.1]));
    intros H; apply list_elem_of_singleton in H; subst r; auto.
Qed.

Lemma run_spec fs now :
  run self fs now
  = (Ok tt,
     mkState (header now
                +:+ render_all (records_of self (all_visited self fs))
                +:+ "--SUMMARY" +:+ PyStr.LF
                +:+ summary_line
                      (stats_after self (all_visited self fs) initial_stats))
             (records_of self (all_visited self fs))
             (stats_after self (all_visited self fs) initial_stats)).
Proof. unfold run, initial_state. by rewrite generate_map_spec. Qed.

(** Every emitted record is a file of a reached directory that passed
    the file decision. *)
Lemma emitted_sound fs now r :
  r ∈ emitted (run self fs now).2 →
  ∃ root file,
    relativePath r = root ++ [file.1]
    ∧ descended self root
    ∧ should_process_file self (root ++ [file.1]) (st_size file.2) = true
    ∧ kind r = if is_text_file self (root ++ [file.1])
               then TextContent
                      (terminated
                         (read_outcome (Codec.open_read (data file.2))).1)
               else BinaryMarker.
Proof.
  rewrite run_spec. cbn [snd emitted]. intros Hr.
  apply records_of_elem in Hr as ([root file] & Hv & Hr).
  cbn [fst snd] in Hr. apply file_records_elem in Hr as (Hp & Hpath & Hk).
  exists root, file. repeat split; try done.
  - by destruct (all_visited_descended _ _ Hv).
  - by destruct (all_visited_descended _ _ Hv).
Qed.

(** A record strictly below [dir] has [dir] on its way down. *)
Lemma below_prefix (dir q root : PyPath.rel_path) (name : string) :
  root ++ [name] = dir ++ q → q ≠ [] → dir `prefix_of` root.
Proof.
  intros Heq Hq.
  destruct (exists_last Hq) as (q' & x & ->).
  rewrite app_assoc in Heq. apply app_inj_tail in Heq as [-> _].
  by exists q'.
Qed.

(** Nothing is emitted from below a directory the folder decision
    prunes. *)
Lemma pruned_subtree_silent dir fs now r q :
  dir ≠ [] → should_process_folder self dir = false →
  r ∈ emitted (run self fs now).2 →
  relativePath r = dir ++ q → q ≠ [] → False.
Proof.
  intros Hne Hprune Hr Hpath Hq.
  apply emitted_sound in Hr as (root & file & Hrel & [_ Hall] & _).
  rewrite Hrel in Hpath. apply below_prefix in Hpath; [|done].
  rewrite (Hall dir Hne Hpath) in Hprune. discriminate.
Qed.

End Reach.

(** ** The files of the tree and the walk *)

Lemma files_of_elem (entries : list (string * Node)) (f : string * FileInfo) :
  f ∈ files_of entries ↔ (f.1, File f.2) ∈ entries.
Proof.
  unfold files_of. rewrite list_elem_of_omap. split.
  - intros ([name [info|sub]] & Hin & Heq); cbn in Heq; [|discriminate].
    injection Heq as <-. exact Hin.
  - intros Hin. exists (f.1, File f.2). split; [exact Hin|].
    cbn. by destruct f.
Qed.

(** The files of every yielded directory are files of the tree, at the
    path of that directory. *)
Lemma os_walk_files keep n : ∀ top t f,
  t ∈ os_walk keep top n → f ∈ t.2 →
  ∃ suffix, t.1.1 = top ++ suffix ∧ file_at n (suffix ++ [f.1]) f.2.
Proof.
  induction n as [info|entries IH] using Node_induction; intros top t f Ht Hf.
  { cbn in Ht. by apply elem_of_nil in Ht. }
  cbn [os_walk] in Ht. apply elem_of_cons in Ht as [->|Ht].
  { exists []. cbn [fst snd] in *. split; [by rewrite app_nil_r|].
    apply file_here. by apply files_of_elem. }
  apply list_elem_of_In, in_flat_map in Ht as ([d child] & Hin & Ht).
  apply list_elem_of_In in Hin, Ht.
  rewrite Forall_forall in IH. specialize (IH _ Hin). cbn [fst snd] in *.
  destruct child as [info|es]; [by apply elem_of_nil in Ht|].
  destruct (keep (top ++ [d])); [|by apply elem_of_nil in Ht].
  destruct (IH _ _ _ Ht Hf) as (suf & Heq & Hat).
  exists (d :: suf). split.
  { rewrite Heq. by rewrite <- app_assoc. }
  cbn [app]. by eapply file_below.
Qed.


Section Coverage.

Variable self : CodeMapGenerator.

Lemma visited_files tree v :
  v ∈ visited self tree → file_at tree (v.1 ++ [v.2.1]) v.2.2.
Proof.
  unfold visited. intros Hv.
  apply list_elem_of_In, in_flat_map in Hv as (t & Ht & Hv).
  apply list_elem_of_In in Ht, Hv.
  unfold dir_visits in Hv.
  destruct (should_process_folder self t.1.1); [|by apply elem_of_nil in Hv].
  apply list_elem_of_fmap in Hv as (f & -> & Hf). cbn [fst snd].
  pose proof (proj1 (sorted_elem t.2 f) Hf) as Hf'.
  destruct (os_walk_files _ _ _ _ _ Ht Hf') as (suf & Heq & Hat).
  cbn [app] in Heq.
  exact (eq_ind_r (λ x : PyPath.rel_path, file_at tree (x ++ [f.1]) f.2)
           Hat Heq).
Qed.

Lemma all_visited_scanned fs v :
  v ∈ all_visited self fs → scanned_file self fs (v.1 ++ [v.2.1]) v.2.2.
Proof.
  unfold all_visited. intros Hv.
  apply list_elem_of_In, in_flat_map in Hv as (src & Hsrc & Hv).
  apply list_elem_of_In in Hsrc, Hv. unfold root_visits in Hv.
  destruct (fs src) as [[info|entries]|] eqn:Hfs;
    try by apply elem_of_nil in Hv.
  exists src, entries. split; [exact Hsrc|]. split; [exact Hfs|].
  by apply visited_files.
Qed.

(** Where an emitted record comes from: a file of a source folder, in a
    reached directory, that passed the file decision. *)
Lemma emitted_origin fs now r :
  r ∈ emitted (run self fs now).2 →
  ∃ root name info,
    relativePath r = root ++ [name]
    ∧ scanned_file self fs (root ++ [name]) info
    ∧ descended self root
    ∧ should_process_file self (root ++ [name]) (st_size info) = true
    ∧ kind r = if is_text_file self (root ++ [name])
               then TextContent
                      (terminated
                         (read_outcome (Codec.open_read (data info))).1)
               else BinaryMarker.
Proof.
  rewrite run_spec. cbn [snd emitted]. intros Hr.
  apply records_of_elem in Hr as ([root [name info]] & Hv & Hr).
  cbn [fst snd] in Hr. apply file_records_elem in Hr as (Hp & Hpath & Hk).
  cbn [fst snd] in *.
  exists root, name, info. split; [exact Hpath|]. split.
  { exact (all_visited_scanned fs (root, (name, info)) Hv). }
  split; [exact (all_visited_descended self fs (root, (name, info)) Hv)|].
  split; [exact Hp|exact Hk].
Qed.

(** What passing the file decision means, rule by rule. *)
Lemma should_process_file_inv rel size :
  should_process_file self rel size = true →
  ¬ inside_own_directory rel
  ∧ ¬ file_excluded self rel
  ∧ (files self ≠ [] → file_listed self rel)
  ∧ (files self = [] → ∀ n, size = Ok n → n ≤ max_file_size self).
Proof.
  unfold should_process_file.
  destruct (PyStr.contains "codemapper/" (normalize_rel rel)
            || PyStr.contains "codemapper\" (PyPath.to_str rel)) eqn:Hown;
    [discriminate|].
  destruct (PyStr.in_set (PyPath.name rel) (except_files self)
            || PyStr.in_set (normalize_rel rel) (except_files self)) eqn:Hexc;
    [discriminate|].
  apply orb_false_iff in Hown as [Ho1 Ho2].
  apply orb_false_iff in Hexc as [He1 He2].
  intros H. split.
  { intros [Hc|Hc]; congruence. }
  split.
  { intros [Hc|Hc]; apply (proj2 (in_set_spec _ _)) in Hc; congruence. }
  destruct (files self) as [|f0 fl] eqn:Hf.
  - split; [congruence|]. intros _ n ->.
    destruct (n >? max_file_size self) eqn:Hgt; [discriminate|]. lia.
  - split; [|discriminate]. intros _. unfold file_listed. rewrite Hf.
    apply orb_true_iff in H.
    destruct H as [H|H]; [left|right]; exact (proj1 (in_list_spec _ _) H).
Qed.

End Coverage.




(** * The claims *)


(** C1 (as the code behaves).  On the example tree, [a.txt] ("hello"),
    [b.png] and [node_modules/x.js], the default configuration emits a
    record for [a.txt] with content "hello" and a line feed, a marker-only
    record for [b.png], nothing for [node_modules/x.js], and the summary
    [Text:1 Binary:1 Skipped:0]: the file of the pruned directory is never
    visited, so it is not counted as skipped. *)
Theorem C1_example_run (is_frozen : bool) (now : string) :
  run (init is_frozen default_config) example_fs now
  = (Ok tt,
     mkState
       (header now
          +:+ "--a.txt" +:+ PyStr.LF +:+ "hello" +:+ PyStr.LF
          +:+ "----" +:+ PyStr.LF
          +:+ "--b.png" +:+ PyStr.LF
          +:+ "--SUMMARY" +:+ PyStr.LF
          +:+ "Text:1 Binary:1 Skipped:0" +:+ PyStr.LF)
       [ mkRecord ["a.txt"] (TextContent ("hello" +:+ PyStr.LF));
         mkRecord ["b.png"] BinaryMarker ]
       (mkStats 1 1 0 0 9)).
Proof.
  rewrite run_spec.
  assert (records_of (init is_frozen default_config)
            (all_visited (init is_frozen default_config) example_fs)
          = [ mkRecord ["a.txt"] (TextContent ("hello" +:+ PyStr.LF));
              mkRecord ["b.png"] BinaryMarker ]) as ->
    by (destruct is_frozen; vm_compute; reflexivity).
  assert (stats_after (init is_frozen default_config)
            (all_visited (init is_frozen default_config) example_fs)
            initial_stats
          = mkStats 1 1 0 0 9) as ->
    by (destruct is_frozen; vm_compute; reflexivity).
  do 3 f_equal.
Qed.

(** C1, as stated, fails on the example tree: the summary does not read
    [Skipped:1]. *)
Lemma C1_counterexample :
  let st := (run (init false default_config) example_fs example_now).2 in
  skipped_files (stats st) ≠ 1
  ∧ PyStr.endswith (out st) ("Text:1 Binary:1 Skipped:1" +:+ PyStr.LF) = false
  ∧ PyStr.endswith (out st) ("Text:1 Binary:1 Skipped:0" +:+ PyStr.LF) = true.
Proof. vm_compute. repeat split; congruence. Qed.





(** C3.  A directory covered both by an entry of [except_folders] and by
    an entry of [folders] is pruned: the exclusion is tested first. *)
Theorem C3_exclude_wins (self : CodeMapGenerator) (dir : PyPath.rel_path) :
  excluded self dir → included self dir →
  should_process_folder self dir = false.
Proof. intros Hex _. by apply folder_rule_b. Qed.

Lemma C3_exclude_wins_witness :
  let self := init false (mkConfig None None (Some ["tests"]) None
                                   (Some ["tests"]) None None) in
  excluded self ["tests"; "unit"] ∧ included self ["tests"; "unit"]
  ∧ should_process_folder self ["tests"; "unit"] = false.
Proof.
  cbv zeta.
  assert (Hex : excluded (init false (mkConfig None None (Some ["tests"]) None
                                               (Some ["tests"]) None None))
                         ["tests"; "unit"]).
  { exists "tests". split; [|vm_compute; reflexivity].
    apply (proj1 (in_set_spec _ _)). vm_compute. reflexivity. }
  assert (Hin : included (init false (mkConfig None None (Some ["tests"]) None
                                               (Some ["tests"]) None None))
                         ["tests"; "unit"]).
  { exists "tests". split; [|vm_compute; reflexivity].
    apply (proj1 (in_list_spec _ _)). vm_compute. reflexivity. }
  split; [exact Hex|]. split; [exact Hin|].
  exact (C3_exclude_wins _ _ Hex Hin).
Defined.

Lemma read_outcome_readable (bs : list byte) :
  read_outcome (Codec.open_read (Readable bs)) = (text_of bs, false).
Proof.
  unfold read_outcome, text_of, decoded, Codec.open_read, Codec.decode,
    Codec.decode_utf8.
  destruct (Codec.valid_utf8 bs); reflexivity.
Qed.






(** C6.  [read_file_safely] first reads as UTF-8; on a
    [UnicodeDecodeError] it reads again as Latin-1; any other error, of
    either read, is returned as the literal marker, the message of the
    exception between ["[Error: "] and ["]"], and counted in [errors].
    Whatever the two reads do, the call returns: it raises nothing, and
    touches neither what is written nor the other counters.  On a file:
    bytes that can be read come back decoded, as UTF-8 when they are
    valid UTF-8 and as Latin-1 otherwise, without an error; a file that
    cannot be opened comes back as the marker with its message. *)
Theorem C6_read_never_raises :
  (∀ open_ st, ∃ content st',
     read_file_safely open_ st = (Ok content, st')
     ∧ out st' = out st ∧ emitted st' = emitted st
     ∧ text_files (stats st') = text_files (stats st)
     ∧ binary_files (stats st') = binary_files (stats st)
     ∧ skipped_files (stats st') = skipped_files (stats st)
     ∧ total_size (stats st') = total_size (stats st)
     ∧ match open_ Codec.UTF8 with
       | Ok s => content = s ∧ errors (stats st') = errors (stats st)
       | Raise (UnicodeDecodeError _) =>
           match open_ Codec.Latin1 with
           | Ok s => content = s ∧ errors (stats st') = errors (stats st)
           | Raise (UnicodeDecodeError msg) | Raise (OtherException msg) =>
               content = "[Error: " +:+ msg +:+ "]"
               ∧ errors (stats st') = errors (stats st) + 1
           end
       | Raise (OtherException msg) =>
           content = "[Error: " +:+ msg +:+ "]"
           ∧ errors (stats st') = errors (stats st) + 1
       end)
  ∧ (∀ d st, ∃ content st',
       read_file_safely (Codec.open_read d) st = (Ok content, st')
       ∧ match d with
         | Readable bs =>
             content
             = Codec.translate_newlines
                 (if Codec.valid_utf8 bs then String.string_of_list_byte bs
                  else Codec.decode_latin1 bs)
             ∧ errors (stats st') = errors (stats st)
         | Unreadable msg =>
             content = "[Error: " +:+ msg +:+ "]"
             ∧ errors (stats st') = errors (stats st) + 1
         end).
Proof.
  split.
  - intros open_ [o e s]. rewrite read_file_safely_spec. unfold read_outcome.
    eexists _, _. split; [reflexivity|]. cbn [out emitted stats fst snd].
    split; [reflexivity|]. split; [reflexivity|].
    destruct (open_ Codec.UTF8) as [c|[m|m]]; cbn [fst snd];
      [repeat split; reflexivity| |repeat split; reflexivity].
    destruct (open_ Codec.Latin1) as [c|[m'|m']]; cbn [fst snd];
      repeat split; reflexivity.
  - intros d [o e s]. rewrite read_file_safely_spec.
    eexists _, _. split; [reflexivity|]. cbn [stats].
    destruct d as [bs|msg].
    + rewrite read_outcome_readable. cbn [fst snd]. split; reflexivity.
    + cbn. split; reflexivity.
Qed.

(** C7.  Whatever the configuration, the tool's own script name is in
    [except_files], a file so named never passes the file decision, a
    directory with a segment [codemapper] never passes the folder
    decision, and no run emits a record for such a file or for a file
    below such a directory, [files] and [folders] notwithstanding. *)
Theorem C7_own_files_never_emitted (is_frozen : bool) (config : Config) :
  script_name is_frozen ∈ except_files (init is_frozen config)
  ∧ (∀ rel size,
       PyPath.name rel = script_name is_frozen →
       should_process_file (init is_frozen config) rel size = false)
  ∧ (∀ rel,
       "codemapper" ∈ rel →
       should_process_folder (init is_frozen config) rel = false)
  ∧ (∀ fs now r,
       r ∈ emitted (run (init is_frozen config) fs now).2 →
       PyPath.name (relativePath r) ≠ script_name is_frozen
       ∧ ∀ dir q, relativePath r = dir ++ q → q ≠ [] → "codemapper" ∉ dir).
Proof.
  assert (Hin : script_name is_frozen ∈ except_files (init is_frozen config)).
  { unfold init. cbn [except_files]. apply elem_of_union_l.
    by apply elem_of_singleton. }
  assert (Hfile : ∀ rel size,
            PyPath.name rel = script_name is_frozen →
            should_process_file (init is_frozen config) rel size = false).
  { intros rel size Hname. apply file_rule_b. left. by rewrite Hname. }
  split; [exact Hin|]. split; [exact Hfile|]. split.
  - intros rel Hrel. apply folder_rule_a. by left.
  - intros fs now r Hr.
    apply emitted_sound in Hr as (root & file & Hrel & [Hroot Hall] & Hp & _).
    split.
    + intros Hname. rewrite Hrel in Hname.
      rewrite (Hfile _ (st_size file.2) Hname) in Hp. discriminate.
    + intros dir q Hpath Hq Hcm. rewrite Hrel in Hpath.
      apply below_prefix in Hpath; [|exact Hq].
      assert (Hne : dir ≠ []) by (intros ->; by apply elem_of_nil in Hcm).
      specialize (Hall dir Hne Hpath).
      rewrite (folder_rule_a _ dir (or_introl Hcm)) in Hall. discriminate.
Qed.

(** ** Order of the files of a directory *)

#[local] Instance name_le_trans : Transitive name_le.
Proof. intros a b c. unfold name_le. apply transitivity. Qed.

#[local] Instance name_le_total : Total name_le.
Proof. intros a b. unfold name_le. apply total, _. Qed.

Lemma NoDup_fst_inj {A B} (l : list (A * B)) x y :
  NoDup l.*1 → x ∈ l → y ∈ l → x.1 = y.1 → x = y.
Proof.
  induction l as [|z l IH]; intros Hnd Hx Hy Heq.
  { by apply elem_of_nil in Hx. }
  cbn in Hnd. apply NoDup_cons in Hnd as [Hz Hnd].
  apply elem_of_cons in Hx as [->|Hx], Hy as [->|Hy]; auto.
  - exfalso. apply Hz. rewrite Heq. by apply list_elem_of_fmap_2.
  - exfalso. apply Hz. rewrite <- Heq. by apply list_elem_of_fmap_2.
Qed.

(** [sorted] does not depend on the order in which the directory lists
    its files. *)
Lemma sorted_listing_order (l1 l2 : list (string * FileInfo)) :
  l1 ≡ₚ l2 → NoDup l1.*1 → sorted l1 = sorted l2.
Proof.
  intros Hperm Hnd. unfold sorted.
  apply (Sorted_unique_strong name_le).
  - intros x1 x2 Hx1 Hx2 H12 H21.
    rewrite merge_sort_Permutation in Hx1, Hx2. rewrite <- Hperm in Hx2.
    apply (NoDup_fst_inj l1); try done.
    unfold name_le in H12, H21. by apply (anti_symm String.le).
  - apply Sorted_merge_sort, _.
  - apply Sorted_merge_sort, _.
  - by rewrite !merge_sort_Permutation.
Qed.

(** C8.  Two runs with the same rule set on the same file system return
    the same result, emit the same records and reach the same statistics;
    their outputs differ in the first line only, which carries the time
    stamp.  Within a directory the order in which the file system lists
    the files does not matter, since they are sorted by name. *)
Theorem C8_deterministic (self : CodeMapGenerator) (fs : string → option Node)
    (now1 now2 : string) :
  (run self fs now1).1 = (run self fs now2).1
  ∧ emitted (run self fs now1).2 = emitted (run self fs now2).2
  ∧ stats (run self fs now1).2 = stats (run self fs now2).2
  ∧ (∃ body,
       out (run self fs now1).2 = header now1 +:+ body
       ∧ out (run self fs now2).2 = header now2 +:+ body)
  ∧ (∀ l1 l2 : list (string * FileInfo),
       l1 ≡ₚ l2 → NoDup l1.*1 → sorted l1 = sorted l2).
Proof.
  rewrite !run_spec. cbn [fst snd out emitted stats].
  repeat split; try reflexivity.
  - eexists. split; reflexivity.
  - apply sorted_listing_order.
Qed.

(** ** Counters *)

Lemma file_stats_counted self root file s :
  counted (file_stats self root file s) = counted s + 1.
Proof.
  unfold file_stats, counted.
  destruct (should_process_file self (root ++ [file.1]) (st_size file.2));
    [|cbn; lia].
  destruct (is_text_file self (root ++ [file.1]));
    destruct (st_size file.2);
    try destruct (read_outcome (Codec.open_read (data file.2))).2;
    cbn; lia.
Qed.

Lemma stats_after_counted self vs s :
  counted (stats_after self vs s) = counted s + Z.of_nat (length vs).
Proof.
  unfold stats_after. revert s.
  induction vs as [|v vs IH]; intros s; [cbn; lia|].
  cbn [fold_left length]. rewrite IH, file_stats_counted. lia.
Qed.

(** The directories above a directory are its non-empty prefixes. *)
Lemma upward_elem (p dir : PyPath.rel_path) :
  p ∈ upward dir ↔ p ≠ [] ∧ p `prefix_of` dir.
Proof.
  unfold upward. rewrite list_elem_of_fmap. split.
  - intros (k & -> & Hk). apply list_elem_of_In, in_seq in Hk. split.
    + intros Hnil. apply (f_equal length) in Hnil.
      rewrite length_take in Hnil. cbn in Hnil. lia.
    + exists (drop k dir). by rewrite take_drop.
  - intros [Hne [q ->]]. exists (length p). split.
    + by rewrite take_app_length.
    + apply list_elem_of_In, in_seq. rewrite length_app.
      destruct p; [congruence|]. cbn [length]. lia.
Qed.

Lemma reached_descended (self : CodeMapGenerator) (dir : PyPath.rel_path) :
  reached self dir = true ↔ descended self dir.
Proof.
  unfold reached, descended. rewrite andb_true_iff, forallb_forall. split.
  - intros [Hd Hall]. split; [exact Hd|]. intros p Hp Hpre.
    apply Hall, list_elem_of_In, upward_elem. by split.
  - intros [Hd Hall]. split; [exact Hd|]. intros p Hp.
    apply list_elem_of_In, upward_elem in Hp as [Hne Hpre]. by apply Hall.
Qed.

Lemma upward_snoc (dir : PyPath.rel_path) (d : string) :
  upward (dir ++ [d]) = upward dir ++ [dir ++ [d]].
Proof.
  unfold upward. rewrite length_app. cbn [length].
  rewrite Nat.add_1_r, seq_S, map_app. cbn [List.map]. f_equal.
  - apply map_ext_in. intros k Hk. apply in_seq in Hk.
    apply take_app_le. lia.
  - f_equal. change (1 + length dir)%nat with (S (length dir)).
    apply take_ge. rewrite length_app. cbn [length]. lia.
Qed.

Lemma all_files_below (n : Node) : ∀ top v,
  v ∈ all_files top n → top `prefix_of` v.1.
Proof.
  induction n as [info|entries IH] using Node_induction; intros top v Hv.
  { by apply elem_of_nil in Hv. }
  cbn [all_files] in Hv. apply elem_of_app in Hv as [Hv|Hv].
  - apply list_elem_of_In, in_map_iff in Hv as (f & <- & _). done.
  - apply list_elem_of_In, in_flat_map in Hv as ([d child] & Hin & Hv).
    apply list_elem_of_In in Hin, Hv. rewrite Forall_forall in IH.
    specialize (IH _ Hin). cbn [fst snd] in *.
    destruct child as [info|sub]; [by apply elem_of_nil in Hv|].
    etrans; [|exact (IH _ _ Hv)]. by apply prefix_app_r.
Qed.

Lemma pruned_not_reached (self : CodeMapGenerator) (n : Node)
    (top : PyPath.rel_path) :
  top ≠ [] → should_process_folder self top = false →
  List.filter (λ v, reached self v.1) (all_files top n) = [].
Proof.
  intros Hne Hno.
  assert (∀ v, v ∈ all_files top n → reached self v.1 = false) as Hall.
  { intros v Hv. destruct (reached self v.1) eqn:E; [|reflexivity].
    apply reached_descended in E as [_ Hup].
    pose proof (Hup top Hne (all_files_below n top v Hv)) as Hc.
    exact (eq_trans (eq_sym Hc) Hno). }
  induction (all_files top n) as [|v l IHl]; [reflexivity|].
  cbn [List.filter]. rewrite (Hall v (list_elem_of_here _ _)).
  apply IHl. intros v' Hv'. apply Hall. by apply list_elem_of_further.
Qed.

Lemma filter_listed_in (f : PyPath.rel_path → bool) (top : PyPath.rel_path)
    (l : list (string * FileInfo)) :
  List.filter (λ v : PyPath.rel_path * (string * FileInfo), f v.1)
    (List.map (pair top) l)
  = if f top then List.map (pair top) l else [].
Proof.
  induction l as [|x l IH]; [by destruct (f top)|].
  cbn [List.map List.filter fst]. rewrite IH. by destruct (f top).
Qed.

(** The files the loops reach are, in number, the files of the tree whose
    directory the folder decision lets the walk reach. *)
Lemma visits_from_length (self : CodeMapGenerator) (n : Node) : ∀ top,
  forallb (should_process_folder self) (upward top) = true →
  length (visits_from self top n)
  = length (List.filter (λ v, reached self v.1) (all_files top n)).
Proof.
  induction n as [info|entries IH] using Node_induction; intros top Hup.
  { reflexivity. }
  unfold visits_from. cbn [os_walk flat_map all_files].
  rewrite List.filter_app, !length_app. f_equal.
  - rewrite filter_listed_in. unfold dir_visits, reached. cbn [fst snd].
    rewrite Hup, andb_true_r.
    destruct (should_process_folder self top); [|reflexivity].
    rewrite !length_map. unfold sorted.
    apply Permutation_length, merge_sort_Permutation.
  - induction entries as [|[d child] entries IHe]; [reflexivity|].
    apply Forall_cons in IH as [IHc IH]. cbn [flat_map fst snd].
    rewrite flat_map_app, List.filter_app, !length_app.
    rewrite (IHe IH). f_equal.
    destruct child as [info|sub]; [reflexivity|].
    destruct (should_process_folder self (top ++ [d])) eqn:Hd.
    + apply (IHc (top ++ [d])). rewrite upward_snoc, forallb_app, Hup.
      cbn [forallb]. by rewrite Hd.
    + rewrite pruned_not_reached; [reflexivity|by destruct top|exact Hd].
Qed.

Lemma all_visited_length (self : CodeMapGenerator)
    (fs : string → option Node) :
  length (all_visited self fs)
  = length (List.filter (λ v, reached self v.1) (source_files self fs)).
Proof.
  unfold all_visited, source_files.
  induction (src_folders self) as [|src l IH]; [reflexivity|].
  cbn [flat_map]. rewrite List.filter_app, !length_app, IH. f_equal.
  unfold root_visits. destruct (fs src) as [[info|entries]|]; try reflexivity.
  exact (visits_from_length self (Dir entries) [] eq_refl).
Qed.

Lemma all_files_count (n : Node) : ∀ top,
  length (all_files top n)
  = match n with File _ => 0%nat | Dir _ => count_files n end.
Proof.
  induction n as [info|entries IH] using Node_induction; intros top.
  { reflexivity. }
  cbn [all_files count_files]. rewrite length_app, length_map.
  induction entries as [|[d child] entries IHe]; [reflexivity|].
  apply Forall_cons in IH as [IHc IH]. specialize (IHe IH).
  cbn [flat_map fst snd sum_list_with]. rewrite length_app.
  destruct child as [info|sub].
  - change (files_of ((d, File info) :: entries))
      with ((d, info) :: files_of entries).
    cbn [length count_files]. lia.
  - change (files_of ((d, Dir sub) :: entries)) with (files_of entries).
    pose proof (IHc (top ++ [d])) as Hc. cbn [snd] in Hc.
    rewrite Hc. lia.
Qed.

(** C9.  Each iteration of the file loop adds one to exactly one of
    [text_files], [binary_files] and [skipped_files] and leaves the other
    two alone.  After a run their sum is the number of the files, among
    all the files under the source folders, whose directory the walk
    reaches: the directory passes the folder decision and so does every
    directory above it.  The files of pruned directories are left out of
    the count, which therefore is not the number of files in the tree:
    the example tree holds three files, of which two are counted. *)
Theorem C9_counters :
  (∀ self root file st, ∃ st',
     process_file self root file st = (Ok tt, st')
     ∧ ((text_files (stats st') = text_files (stats st) + 1
         ∧ binary_files (stats st') = binary_files (stats st)
         ∧ skipped_files (stats st') = skipped_files (stats st))
        ∨ (text_files (stats st') = text_files (stats st)
           ∧ binary_files (stats st') = binary_files (stats st) + 1
           ∧ skipped_files (stats st') = skipped_files (stats st))
        ∨ (text_files (stats st') = text_files (stats st)
           ∧ binary_files (stats st') = binary_files (stats st)
           ∧ skipped_files (stats st') = skipped_files (stats st) + 1)))
  ∧ (∀ self fs now,
       text_files (stats (run self fs now).2)
       + binary_files (stats (run self fs now).2)
       + skipped_files (stats (run self fs now).2)
       = Z.of_nat
           (length (List.filter (λ v, reached self v.1)
                      (source_files self fs))))
  ∧ (∀ self dir, reached self dir = true ↔ descended self dir)
  ∧ (∀ top entries,
       length (all_files top (Dir entries)) = count_files (Dir entries))
  ∧ count_files example_tree = 3%nat
  ∧ length (source_files (init false default_config) example_fs) = 3%nat
  ∧ length (List.filter (λ v, reached (init false default_config) v.1)
              (source_files (init false default_config) example_fs))
    = 2%nat.
Proof.
  split; [|split; [|split; [|split; [|split; [|split]]]]].
  - intros self root file [o e s]. rewrite process_file_spec.
    eexists. split; [reflexivity|]. cbn [stats]. unfold file_stats.
    destruct (should_process_file self (root ++ [file.1]) (st_size file.2));
      [|right; right; cbn; lia].
    destruct (is_text_file self (root ++ [file.1])).
    + left. destruct (st_size file.2);
        destruct (read_outcome (Codec.open_read (data file.2))).2; cbn; lia.
    + right; left. destruct (st_size file.2); cbn; lia.
  - intros self fs now. rewrite run_spec. cbn [snd stats].
    pose proof (stats_after_counted self (all_visited self fs) initial_stats)
      as H.
    unfold counted in H. rewrite H, all_visited_length. cbn. lia.
  - intros self dir. apply reached_descended.
  - intros top entries. exact (all_files_count (Dir entries) top).
  - vm_compute. reflexivity.
  - vm_compute. reflexivity.
  - vm_compute. reflexivity.
Qed.

(** ** Extensions *)


Lemma name_snoc (root : PyPath.rel_path) (name : string) :
  PyPath.name (root ++ [name]) = name.
Proof. unfold PyPath.name. apply last_last. Qed.




(** * Further properties of the walk *)

(** X1.  The tool invents no path: every emitted record carries the
    path of a file found under one of the source folders that resolve to
    a directory. *)
Theorem emitted_is_scanned_file (self : CodeMapGenerator)
    (fs : string → option Node) (now : string) (r : OutputRecord) :
  r ∈ emitted (run self fs now).2 →
  ∃ info, scanned_file self fs (relativePath r) info.
Proof.
  intros Hr.
  destruct (emitted_origin self fs now r Hr)
    as (root & name & info & Hpath & Hsc & _).
  exists info. rewrite Hpath. exact Hsc.
Qed.

Lemma emitted_is_scanned_file_witness :
  let r := mkRecord ["app"; "models"; "user.py"]
             (TextContent ("class U: pass" +:+ PyStr.LF)) in
  ∃ info,
    scanned_file (init false default_config) (single_root project_tree)
      (relativePath r) info.
Proof.
  cbv zeta.
  apply (emitted_is_scanned_file (init false default_config)
           (single_root project_tree) example_now).
  apply list_elem_of_In. vm_compute. tauto.
Defined.





(** X3.  With a non-empty [files] list, only listed files are emitted:
    the name or the relative path of every record is an entry of the
    list. *)
Theorem listed_files_only (self : CodeMapGenerator)
    (fs : string → option Node) (now : string) (r : OutputRecord) :
  files self ≠ [] →
  r ∈ emitted (run self fs now).2 →
  file_listed self (relativePath r).
Proof.
  intros Hne Hr.
  destruct (emitted_origin self fs now r Hr)
    as (root & name & info & Hpath & _ & _ & Hfile & _).
  rewrite Hpath.
  destruct (should_process_file_inv self _ _ Hfile) as (_ & _ & Hl & _).
  exact (Hl Hne).
Qed.

Lemma listed_files_only_witness :
  let self := init false (files_config ["main.py"; "app/models/user.py"]) in
  file_listed self ["app"; "models"; "user.py"].
Proof.
  cbv zeta.
  apply (listed_files_only
           (init false (files_config ["main.py"; "app/models/user.py"]))
           (single_root project_tree) example_now
           (mkRecord ["app"; "models"; "user.py"]
              (TextContent ("class U: pass" +:+ PyStr.LF)))).
  - vm_compute. discriminate.
  - apply list_elem_of_In. vm_compute. tauto.
Defined.

(** X4.  No emitted record is a file whose name or relative path is in
    [except_files], whatever [files] and [folders] list. *)
Theorem excluded_file_never_emitted (self : CodeMapGenerator)
    (fs : string → option Node) (now : string) (r : OutputRecord) :
  r ∈ emitted (run self fs now).2 →
  ¬ file_excluded self (relativePath r).
Proof.
  intros Hr.
  destruct (emitted_origin self fs now r Hr)
    as (root & name & info & Hpath & _ & _ & Hfile & _).
  rewrite Hpath.
  destruct (should_process_file_inv self _ _ Hfile) as (_ & He & _).
  exact He.
Qed.

Lemma excluded_file_never_emitted_witness :
  ¬ file_excluded (init false (except_config ["test"] ["README.md"]))
      ["app"; "main.py"].
Proof.
  apply (excluded_file_never_emitted
           (init false (except_config ["test"] ["README.md"]))
           (single_root project_tree) example_now
           (mkRecord ["app"; "main.py"]
              (TextContent ("print(1)" +:+ PyStr.LF)))).
  apply list_elem_of_In. vm_compute. tauto.
Defined.

(** X5.  No emitted path contains [codemapper/]: the test of the file
    decision is a substring test on the relative path, so the files of a
    directory whose name merely ends in [codemapper] are left out as
    well. *)
Theorem no_codemapper_substring (self : CodeMapGenerator)
    (fs : string → option Node) (now : string) (r : OutputRecord) :
  r ∈ emitted (run self fs now).2 →
  PyStr.contains "codemapper/" (normalize_rel (relativePath r)) = false.
Proof.
  intros Hr.
  destruct (emitted_origin self fs now r Hr)
    as (root & name & info & Hpath & _ & _ & Hfile & _).
  rewrite Hpath.
  destruct (should_process_file_inv self _ _ Hfile) as (Ho & _).
  destruct (PyStr.contains "codemapper/" (normalize_rel (root ++ [name])))
    eqn:E; [|reflexivity].
  exfalso. apply Ho. left. exact E.
Qed.

Lemma no_codemapper_substring_witness :
  PyStr.contains "codemapper/" (normalize_rel ["app"; "main.py"]) = false
  ∧ PyStr.contains "codemapper/" (normalize_rel ["mycodemapper"; "x.py"])
    = true.
Proof.
  split; [|reflexivity].
  apply (no_codemapper_substring (init false default_config)
           (single_root project_tree) example_now
           (mkRecord ["app"; "main.py"]
              (TextContent ("print(1)" +:+ PyStr.LF)))).
  apply list_elem_of_In. vm_compute. tauto.
Defined.

(** X6.  Without a [files] list the size rule decides: a file that
    rules a and b let through passes exactly when its size is at most
    [max_file_size], a file of [max_file_size] bytes included; and every
    record of the map is a file of a source folder whose size, when the
    stat succeeds, is at most [max_file_size]. *)
Theorem size_limit_respected (self : CodeMapGenerator) :
  files self = [] →
  (∀ rel n,
     ¬ inside_own_directory rel → ¬ file_excluded self rel →
     (should_process_file self rel (Ok n) = true ↔ n ≤ max_file_size self))
  ∧ (∀ fs now r,
       r ∈ emitted (run self fs now).2 →
       ∃ info,
         scanned_file self fs (relativePath r) info
         ∧ ∀ n, st_size info = Ok n → n ≤ max_file_size self).
Proof.
  intros Hnil. split.
  - intros rel n Ha Hb. unfold should_process_file.
    destruct (PyStr.contains "codemapper/" (normalize_rel rel)
              || PyStr.contains "codemapper\" (PyPath.to_str rel)) eqn:Hown.
    { exfalso. apply Ha. apply orb_true_iff in Hown. exact Hown. }
    destruct (PyStr.in_set (PyPath.name rel) (except_files self)
              || PyStr.in_set (normalize_rel rel) (except_files self))
      eqn:Hexc.
    { exfalso. apply Hb. apply orb_true_iff in Hexc.
      destruct Hexc as [H|H]; [left|right];
        exact (proj1 (in_set_spec _ _) H). }
    rewrite Hnil. destruct (n >? max_file_size self) eqn:Hgt.
    + split; [discriminate|]. lia.
    + split; [lia|reflexivity].
  - intros fs now r Hr.
    destruct (emitted_origin self fs now r Hr)
      as (root & name & info & Hpath & Hsc & _ & Hfile & _).
    exists info. rewrite Hpath. split; [exact Hsc|].
    destruct (should_process_file_inv self _ _ Hfile) as (_ & _ & _ & Hs).
    exact (Hs Hnil).
Qed.

Lemma size_limit_respected_witness :
  let self := init false default_config in
  should_process_file self ["app"; "main.py"] (Ok 10485760) = true
  ∧ should_process_file self ["app"; "main.py"] (Ok 10485761) = false
  ∧ ∃ info,
      scanned_file self (single_root project_tree) ["app"; "main.py"] info
      ∧ ∀ n, st_size info = Ok n → n ≤ 10485760.
Proof.
  cbv zeta.
  destruct (size_limit_respected (init false default_config) eq_refl)
    as [Hiff Hmap].
  assert (¬ inside_own_directory ["app"; "main.py"]) as Ha.
  { intros [H|H]; vm_compute in H; discriminate. }
  assert (¬ file_excluded (init false default_config) ["app"; "main.py"])
    as Hb.
  { intros [H|H]; apply (proj2 (in_set_spec _ _)) in H;
      vm_compute in H; discriminate. }
  split; [|split].
  - apply (proj2 (Hiff ["app"; "main.py"] 10485760 Ha Hb)).
    vm_compute. discriminate.
  - destruct (should_process_file (init false default_config)
                ["app"; "main.py"] (Ok 10485761)) eqn:E; [|reflexivity].
    apply (proj1 (Hiff ["app"; "main.py"] 10485761 Ha Hb)) in E.
    vm_compute in E. exfalso. by apply E.
  - apply (Hmap (single_root project_tree) example_now
             (mkRecord ["app"; "main.py"]
                (TextContent ("print(1)" +:+ PyStr.LF)))).
    apply list_elem_of_In. vm_compute. tauto.
Defined.

(** ** Strings and normalised paths *)

Lemma prefix_refl (s : string) : String.prefix s s = true.
Proof.
  induction s as [|c s IH]; [reflexivity|].
  cbn. destruct (ascii_dec c c); [exact IH|congruence].
Qed.

Lemma replace_char_nonempty a b s :
  s ≠ "" → PyStr.replace_char a b s ≠ "".
Proof. destruct s; [congruence|discriminate]. Qed.

Lemma concat_nonempty sep (p : string) ps :
  p ≠ "" → String.concat sep (p :: ps) ≠ "".
Proof.
  intros Hp. destruct p as [|c p]; [congruence|].
  destruct ps; cbn; discriminate.
Qed.

Lemma str_of_Path_nonempty (s : string) : PyPath.str_of_Path s ≠ "".
Proof.
  unfold PyPath.str_of_Path.
  destruct (PyPath.root_of s) as [|c r] eqn:Hr.
  - destruct (PyPath.parse s) as [|p ps] eqn:Hp; [discriminate|].
    change ("" +:+ String.concat "/" (p :: ps))
      with (String.concat "/" (p :: ps)).
    apply concat_nonempty.
    assert (p ∈ PyPath.parse s) as Hin by (rewrite Hp; apply list_elem_of_here).
    unfold PyPath.parse in Hin. apply list_elem_of_In, filter_In in Hin as [_ Hk].
    unfold PyPath.keep_segment in Hk. apply andb_true_iff in Hk as [Hk _].
    intros ->. discriminate.
  - discriminate.
Qed.

Lemma normalize_path_nonempty (f : string) : normalize_path f ≠ "".
Proof. apply replace_char_nonempty, str_of_Path_nonempty. Qed.

Lemma startswith_dot (g : string) :
  PyStr.startswith "." g = true → g = "" ∨ g = ".".
Proof.
  unfold PyStr.startswith. destruct g as [|c [|c' g]]; [by left| |].
  - cbn. destruct (ascii_dec c "."); [subst; by right|discriminate].
  - cbn. destruct (ascii_dec c "."); discriminate.
Qed.

(** ** The folder decision at the level of the walk *)

(** Passing the folder decision under a non-empty [folders] list. *)
Lemma folder_pass_listed (self : CodeMapGenerator) (rel : PyPath.rel_path) :
  folders self ≠ [] → should_process_folder self rel = true →
  included self rel ∨ PyPath.name rel ∈ folders self.
Proof.
  intros Hne. unfold should_process_folder, included.
  destruct (PyStr.in_list "codemapper" rel
            || PyStr.contains "codemapper/" (normalize_rel rel));
    [discriminate|].
  destruct (PyStr.set_any _ (except_folders self)); [discriminate|].
  destruct (folders self) as [|f0 fl] eqn:Hf; [congruence|].
  destruct (has_skip_segment rel); intros H.
  - left. exact (proj1 (existsb_spec _ _) H).
  - apply (proj1 (existsb_spec _ _)) in H as (f & Hin & H).
    apply orb_true_iff in H as [H|H].
    + left. exists f. split; [exact Hin|].
      apply orb_true_iff in H as [H|H]; [exact H|].
      apply String.eqb_eq in H. rewrite <- H. apply prefix_refl.
    + right. exact (proj1 (in_list_spec _ _) H).
Qed.

(** X7.  With a non-empty [folders] list, a record below the root lies
    under a top-level directory that the list selects: the directory's
    name starts with a normalised entry, or is itself an entry.  An entry
    that names a nested path selects nothing by itself, the directory
    above it being pruned. *)
Theorem folders_select_top_level (self : CodeMapGenerator)
    (fs : string → option Node) (now : string) (r : OutputRecord)
    (d : string) (rest : PyPath.rel_path) :
  folders self ≠ [] →
  r ∈ emitted (run self fs now).2 →
  relativePath r = d :: rest → rest ≠ [] →
  included self [d] ∨ d ∈ folders self.
Proof.
  intros Hne Hr Hpath Hrest.
  destruct (emitted_origin self fs now r Hr)
    as (root & name & info & Hp & _ & [_ Hup] & _).
  rewrite Hpath in Hp.
  destruct root as [|d' root]; cbn [app] in Hp.
  { injection Hp as _ Hp. congruence. }
  injection Hp as <- _.
  assert (should_process_folder self [d] = true) as Hd.
  { apply Hup; [discriminate|]. by apply prefix_cons, prefix_nil. }
  exact (folder_pass_listed self [d] Hne Hd).
Qed.

Lemma folders_select_top_level_witness :
  let self := init false (folders_config ["app"]) in
  (included self ["apple"] ∨ "apple" ∈ folders self)
  ∧ emitted (run (init false (folders_config ["app/models"]))
               (single_root project_tree) example_now).2 = [].
Proof.
  cbv zeta. split; [|vm_compute; reflexivity].
  apply (folders_select_top_level (init false (folders_config ["app"]))
           (single_root project_tree) example_now
           (mkRecord ["apple"; "pie.txt"] (TextContent ("pie" +:+ PyStr.LF)))
           "apple" ["pie.txt"]).
  - vm_compute. discriminate.
  - apply list_elem_of_In. vm_compute. tauto.
  - reflexivity.
  - discriminate.
Defined.

(** X8.  With a non-empty [folders] list, the files directly in a source
    folder are left out unless an entry normalises to ['.']. *)
Theorem root_files_need_dot_entry (self : CodeMapGenerator)
    (fs : string → option Node) (now : string) (r : OutputRecord)
    (name : string) :
  folders self ≠ [] →
  (∀ f, f ∈ folders self → normalize_path f ≠ ".") →
  r ∈ emitted (run self fs now).2 →
  relativePath r ≠ [name].
Proof.
  intros Hne Hdot Hr Hpath.
  destruct (emitted_origin self fs now r Hr)
    as (root & name' & info & Hp & _ & [Hroot _] & _).
  rewrite Hpath in Hp.
  destruct root as [|d root]; cbn [app] in Hp;
    [|destruct root; discriminate].
  destruct (folder_pass_listed self [] Hne Hroot) as [(f & Hin & Hs)|Hin].
  - apply startswith_dot in Hs as [Hs|Hs].
    + exact (normalize_path_nonempty f Hs).
    + exact (Hdot f Hin Hs).
  - exact (Hdot "" Hin eq_refl).
Qed.

Lemma root_files_need_dot_entry_witness :
  let self := init false (folders_config ["app"]) in
  relativePath (mkRecord ["app"; "main.py"]
                  (TextContent ("print(1)" +:+ PyStr.LF)))
  ≠ ["README.md"]
  ∧ mkRecord ["README.md"] (TextContent ("# demo" +:+ PyStr.LF))
    ∈ emitted (run (init false (folders_config ["."]))
                 (single_root project_tree) example_now).2.
Proof.
  cbv zeta. split; [|apply list_elem_of_In; vm_compute; tauto].
  apply (root_files_need_dot_entry (init false (folders_config ["app"]))
           (single_root project_tree) example_now).
  - vm_compute. discriminate.
  - intros f Hf. vm_compute in Hf.
    apply list_elem_of_In in Hf. destruct Hf as [<-|[]].
    vm_compute. discriminate.
  - apply list_elem_of_In. vm_compute. tauto.
Defined.

(** X9.  No record is emitted below a directory under the source
    folder that an entry of [except_folders] covers; the entry is a
    prefix of the directory's relative path as a string, so [test] covers
    [tests] too.  The source folder itself, whose path is ['.'], is the
    one exception: when an entry covers it, only the files directly in it
    are left out.  So a record that lies under a covered directory lies
    under the source folder itself, and not directly in it. *)
Theorem nothing_below_excluded_folder (self : CodeMapGenerator)
    (fs : string → option Node) (now : string) (r : OutputRecord)
    (dir q : PyPath.rel_path) :
  r ∈ emitted (run self fs now).2 →
  relativePath r = dir ++ q → q ≠ [] →
  excluded self dir →
  dir = [] ∧ ∃ d rest, q = d :: rest ∧ rest ≠ [].
Proof.
  intros Hr Hpath Hq Hex.
  destruct dir as [|x dir].
  - split; [reflexivity|]. cbn [app] in Hpath.
    destruct (emitted_origin self fs now r Hr)
      as (root & name & info & Hp & _ & [Hroot _] & _).
    rewrite Hpath in Hp. destruct root as [|d root].
    + rewrite (folder_rule_b self [] Hex) in Hroot. discriminate.
    + exists d, (root ++ [name]). split; [exact Hp|]. by destruct root.
  - exfalso.
    exact (pruned_subtree_silent self (x :: dir) fs now r q
             ltac:(discriminate) (folder_rule_b self (x :: dir) Hex)
             Hr Hpath Hq).
Qed.

Lemma nothing_below_excluded_folder_witness :
  let self := init false except_root_config in
  excluded self []
  ∧ mkRecord ["app"; "main.py"] (TextContent ("print(1)" +:+ PyStr.LF))
    ∈ emitted (run self (single_root project_tree) example_now).2
  ∧ (([] : PyPath.rel_path) = []
     ∧ ∃ d rest, ["app"; "main.py"] = d :: rest ∧ rest ≠ [])
  ∧ excluded (init false (except_config ["test"] ["README.md"])) ["tests"].
Proof.
  cbv zeta.
  assert (excluded (init false except_root_config) []) as Hex.
  { exists ".". split; [|reflexivity].
    apply (proj1 (in_set_spec _ _)). vm_compute. reflexivity. }
  assert (mkRecord ["app"; "main.py"] (TextContent ("print(1)" +:+ PyStr.LF))
          ∈ emitted (run (init false except_root_config)
                       (single_root project_tree) example_now).2) as Hr.
  { apply list_elem_of_In. vm_compute. tauto. }
  split; [exact Hex|]. split; [exact Hr|]. split.
  - apply (nothing_below_excluded_folder (init false except_root_config)
             (single_root project_tree) example_now
             (mkRecord ["app"; "main.py"]
                (TextContent ("print(1)" +:+ PyStr.LF)))
             [] ["app"; "main.py"] Hr eq_refl).
    + discriminate.
    + exact Hex.
  - exists "test". split; [|reflexivity].
    apply (proj1 (in_set_spec _ _)). vm_compute. reflexivity.
Defined.

(** ** Extensions *)

Lemma rfind_from_spec (c : ascii) (s : string) : ∀ i last,
  PyStr.rfind_from c s i last = last
  ∨ (i ≤ PyStr.rfind_from c s i last
     ∧ ∃ rest,
         PyStr.drop (Z.to_nat (PyStr.rfind_from c s i last - i)) s
         = String c rest).
Proof.
  induction s as [|a s IH]; intros i last; [by left|].
  cbn [PyStr.rfind_from].
  destruct (IH (i + 1) (if Ascii.eqb a c then i else last))
    as [Heq|(Hle & rest & Hd)].
  - rewrite Heq. destruct (Ascii.eqb a c) eqn:Hac; [|by left].
    right. split; [lia|]. apply Ascii.eqb_eq in Hac. subst a.
    exists s. by rewrite Z.sub_diag.
  - right. split; [lia|]. exists rest.
    replace (Z.to_nat (PyStr.rfind_from c s (i + 1)
                         (if Ascii.eqb a c then i else last) - i))
      with (S (Z.to_nat (PyStr.rfind_from c s (i + 1)
                           (if Ascii.eqb a c then i else last) - (i + 1))))
      by lia.
    exact Hd.
Qed.

(** A suffix is empty or starts with the dot. *)
Lemma suffix_shape (p : PyPath.rel_path) :
  PyPath.suffix p = "" ∨ ∃ rest, PyPath.suffix p = String "." rest.
Proof.
  unfold PyPath.suffix.
  destruct ((0 <? PyStr.rfind "." (PyPath.name p))
            && (PyStr.rfind "." (PyPath.name p)
                <? PyStr.len (PyPath.name p) - 1)) eqn:Hc; [|by left].
  right. apply andb_true_iff in Hc as [Hpos _]. apply Z.ltb_lt in Hpos.
  unfold PyStr.rfind in *.
  destruct (rfind_from_spec "." (PyPath.name p) 0 (-1))
    as [Heq|(_ & rest & Hd)]; [lia|].
  exists rest. rewrite Z.sub_0_r in Hd. exact Hd.
Qed.

Lemma lower_char_idem (c : ascii) :
  PyStr.lower_char (PyStr.lower_char c) = PyStr.lower_char c.
Proof. destruct c as [[] [] [] [] [] [] [] []]; reflexivity. Qed.

Lemma lower_idem (s : string) : PyStr.lower (PyStr.lower s) = PyStr.lower s.
Proof.
  induction s as [|c s IH]; [reflexivity|].
  cbn [PyStr.lower]. by rewrite lower_char_idem, IH.
Qed.

(** X10.  The entries of [text_extensions] are compared as they are with
    the lower-cased suffix, dot included: when every entry lacks the
    leading dot or is not in lower case, and the empty string is no
    entry, no file is classified as text. *)
Theorem extension_entries_need_dot (self : CodeMapGenerator)
    (file_path : PyPath.rel_path) :
  (∀ e, e ∈ text_extensions self →
        PyStr.startswith e "." = false ∨ PyStr.lower e ≠ e) →
  "" ∉ text_extensions self →
  is_text_file self file_path = false.
Proof.
  intros Hent Hempty. unfold is_text_file.
  destruct (PyStr.in_set (PyStr.lower (PyPath.suffix file_path))
              (text_extensions self)) eqn:Hin; [|reflexivity].
  exfalso. apply (proj1 (in_set_spec _ _)) in Hin.
  destruct (suffix_shape file_path) as [Hs|(rest & Hs)]; rewrite Hs in Hin.
  - exact (Hempty Hin).
  - destruct (Hent _ Hin) as [Hd|Hl].
    + unfold PyStr.startswith in Hd. cbn [PyStr.lower String.prefix] in Hd.
      change (PyStr.lower_char ".") with "."%char in Hd.
      destruct (ascii_dec "." "."); [|congruence].
      destruct (PyStr.lower rest); discriminate.
    + apply Hl. apply lower_idem.
Qed.

Lemma extension_entries_need_dot_witness :
  is_text_file (init false odd_extensions_config) ["app"; "main.py"] = false
  ∧ is_text_file (init false odd_extensions_config) ["notes.TXT"] = false.
Proof.
  assert (∀ p, is_text_file (init false odd_extensions_config) p = false)
    as H; [|split; apply H].
  intros p. apply extension_entries_need_dot.
  - intros e He.
    change (e ∈ (list_to_set ["py"; ".TXT"] : gset string)) in He.
    apply elem_of_list_to_set in He. apply list_elem_of_In in He.
    destruct He as [<-|[<-|[]]]; [left; reflexivity|right; discriminate].
  - intros He. apply (proj2 (in_set_spec _ _)) in He.
    vm_compute in He. discriminate.
Defined.

(** ** Order within a directory *)

(** X11.  The records of one directory come in increasing order of file
    name (by code unit, upper case before lower case), whatever the order
    of the listing. *)
Theorem names_sorted_within_directory (self : CodeMapGenerator)
    (t : PyPath.rel_path * list string * list (string * FileInfo)) :
  StronglySorted String.le
    (List.map (λ r, PyPath.name (relativePath r))
       (records_of self (dir_visits self t))).
Proof.
  unfold dir_visits.
  destruct (should_process_folder self t.1.1); [|constructor].
  rewrite records_of_dir.
  pose proof (StronglySorted_merge_sort name_le t.2) as Hs.
  fold (sorted t.2) in Hs.
  induction Hs as [|f l Hl IH Hall]; [constructor|].
  cbn [flat_map]. rewrite map_app. unfold file_records at 1.
  assert (Forall (String.le f.1)
            (List.map (λ r, PyPath.name (relativePath r))
               (flat_map (file_records self t.1.1) l))) as Hrest.
  { apply Forall_forall. intros x Hx.
    apply list_elem_of_In, in_map_iff in Hx as (r & <- & Hr).
    apply in_flat_map in Hr as (f' & Hf' & Hr).
    apply list_elem_of_In in Hr.
    apply file_records_elem in Hr as (_ & -> & _).
    rewrite name_snoc. rewrite Forall_forall in Hall.
    apply (Hall f'). by apply list_elem_of_In. }
  destruct (should_process_file self (t.1.1 ++ [f.1]) (st_size f.2));
    [|exact IH].
  destruct (is_text_file self (t.1.1 ++ [f.1]));
    cbn [List.map app relativePath]; rewrite name_snoc;
    by constructor.
Qed.

(** ** What the counters say *)

Lemma file_stats_size_bound self root file s :
  files self = [] → 0 ≤ max_file_size self →
  total_size s ≤ (text_files s + binary_files s) * max_file_size self →
  total_size (file_stats self root file s)
  ≤ (text_files (file_stats self root file s)
     + binary_files (file_stats self root file s)) * max_file_size self.
Proof.
  intros Hnil Hmax Hinv. unfold file_stats.
  destruct (should_process_file self (root ++ [file.1]) (st_size file.2))
    eqn:Hfile; [|exact Hinv].
  destruct (should_process_file_inv self _ _ Hfile) as (_ & _ & _ & Hsize).
  specialize (Hsize Hnil).
  destruct (st_size file.2) as [n|e].
  - specialize (Hsize n eq_refl).
    destruct (is_text_file self (root ++ [file.1]));
      [destruct (read_outcome _).2|];
      cbn [add_text add_binary add_error add_size text_files binary_files
           total_size]; nia.
  - destruct (is_text_file self (root ++ [file.1]));
      [destruct (read_outcome _).2|];
      cbn [add_text add_binary add_error add_size text_files binary_files
           total_size]; nia.
Qed.

(** X12.  Without a [files] list and with a non-negative limit, the size
    total of a run is at most the number of emitted records times
    [max_file_size]: skipped files and failed stats add nothing. *)
Theorem total_size_bounded (self : CodeMapGenerator)
    (fs : string → option Node) (now : string) :
  files self = [] → 0 ≤ max_file_size self →
  let s := stats (run self fs now).2 in
  total_size s ≤ (text_files s + binary_files s) * max_file_size self.
Proof.
  intros Hnil Hmax. rewrite run_spec. cbn [snd stats]. cbv zeta.
  unfold stats_after.
  assert (total_size initial_stats
          ≤ (text_files initial_stats + binary_files initial_stats)
            * max_file_size self) as Hinit by (cbn; lia).
  revert Hinit. generalize initial_stats.
  induction (all_visited self fs) as [|v vs IH]; intros s Hs; [exact Hs|].
  cbn [fold_left]. apply IH. by apply file_stats_size_bound.
Qed.

Lemma total_size_bounded_witness :
  let s := stats (run (init false default_config)
                    (single_root project_tree) example_now).2 in
  total_size s = 40 ∧ text_files s + binary_files s = 6
  ∧ total_size s ≤ (text_files s + binary_files s) * 10485760.
Proof.
  cbv zeta. split; [vm_compute; reflexivity|].
  split; [vm_compute; reflexivity|].
  apply (total_size_bounded (init false default_config)
           (single_root project_tree) example_now).
  - reflexivity.
  - vm_compute. discriminate.
Defined.

(** X13.  Every counted error belongs to a record emitted with content:
    after a run [errors] is at most [text_files], and never negative. *)
Theorem errors_at_most_text_files (self : CodeMapGenerator)
    (fs : string → option Node) (now : string) :
  0 ≤ errors (stats (run self fs now).2)
  ≤ text_files (stats (run self fs now).2).
Proof.
  rewrite run_spec. cbn [snd stats]. unfold stats_after.
  assert (0 ≤ errors initial_stats ≤ text_files initial_stats) as Hinit
    by (cbn; lia).
  revert Hinit. generalize initial_stats.
  induction (all_visited self fs) as [|v vs IH]; intros s Hs; [exact Hs|].
  cbn [fold_left]. apply IH. unfold file_stats.
  destruct (should_process_file self _ _); [|cbn; lia].
  destruct (st_size v.2.2);
    (destruct (is_text_file self _); [destruct (read_outcome _).2|]);
    cbn [add_text add_binary add_error add_size text_files errors]; lia.
Qed.

(** X14.  When every file of the source folders can be opened and read,
    no error is counted: bytes that are not valid UTF-8 are read as
    Latin-1, which cannot fail. *)
Theorem readable_files_give_no_errors (self : CodeMapGenerator)
    (fs : string → option Node) (now : string) :
  (∀ path info, scanned_file self fs path info →
                ∃ bs, data info = Readable bs) →
  errors (stats (run self fs now).2) = 0.
Proof.
  intros Hread. rewrite run_spec. cbn [snd stats]. unfold stats_after.
  assert (errors initial_stats = 0) as Hinit by reflexivity.
  revert Hinit. generalize initial_stats.
  pose proof (all_visited_scanned self fs) as Hsc.
  induction (all_visited self fs) as [|v vs IH]; intros s Hs; [exact Hs|].
  cbn [fold_left]. apply IH.
  { intros v' Hv'. apply Hsc. by apply list_elem_of_further. }
  destruct (Hread _ _ (Hsc v (list_elem_of_here _ _))) as (bs & Hbs).
  destruct v as [root [name info]]. cbn [fst snd] in Hbs |- *.
  unfold file_stats. cbn [fst snd].
  rewrite Hbs, read_outcome_readable. cbn [snd].
  destruct (should_process_file self _ _); [|exact Hs].
  destruct (st_size info); destruct (is_text_file self _); exact Hs.
Qed.

Lemma big_tree_readable :
  ∀ path info,
    scanned_file (init false default_config) (single_root big_tree) path info →
    ∃ bs, data info = Readable bs.
Proof.
  intros path info (src & entries & _ & Hfs & Hat).
  unfold single_root in Hfs. destruct (String.eqb src "."); [|discriminate].
  injection Hfs as <-. inversion Hat as [? ? ? Hin|? ? ? ? ? Hin]; subst.
  - apply list_elem_of_In in Hin. destruct Hin as [Heq|[]].
    injection Heq as <- <-. by eexists.
  - apply list_elem_of_In in Hin. destruct Hin as [Heq|[]]. discriminate.
Defined.

Lemma readable_files_give_no_errors_witness :
  errors (stats (run (init false default_config) (single_root big_tree)
                   example_now).2) = 0
  ∧ errors (stats (run (init false default_config) (single_root faulty_tree)
                     example_now).2) = 1.
Proof.
  split; [|vm_compute; reflexivity].
  exact (readable_files_give_no_errors (init false default_config)
           (single_root big_tree) example_now big_tree_readable).
Defined.

(** ** The text of the map *)

(** X15.  The text written is determined by the records and the
    counters: the header line, then for each record in order its marker
    line, followed for a text record by its content and the closing line,
    then the summary with the three counters. *)
Theorem out_is_rendering (self : CodeMapGenerator)
    (fs : string → option Node) (now : string) :
  out (run self fs now).2
  = header now
    +:+ render_all (emitted (run self fs now).2)
    +:+ "--SUMMARY" +:+ PyStr.LF
    +:+ summary_line (stats (run self fs now).2).
Proof. rewrite run_spec. reflexivity. Qed.



(** ** Several source folders *)

Lemma stats_add_initial_r s : stats_add s initial_stats = s.
Proof.
  destruct s. unfold stats_add; cbn. f_equal; lia.
Qed.

Lemma file_stats_add self root file a b :
  file_stats self root file (stats_add a b)
  = stats_add a (file_stats self root file b).
Proof.
  unfold file_stats.
  destruct (should_process_file self _ _).
  - destruct (st_size file.2);
      (destruct (is_text_file self _); [destruct (read_outcome _).2|]);
      unfold stats_add, add_text, add_binary, add_error, add_size; cbn;
      f_equal; lia.
  - unfold stats_add, add_skipped; cbn. f_equal; lia.
Qed.

Lemma stats_after_add self vs a b :
  stats_after self vs (stats_add a b) = stats_add a (stats_after self vs b).
Proof.
  unfold stats_after. revert b.
  induction vs as [|v vs IH]; intros b; [reflexivity|].
  cbn [fold_left]. by rewrite file_stats_add, IH.
Qed.

(** X17.  The source folders are scanned one after the other with the
    same rules: the records of a run over [l1 ++ l2] are those of a run
    over [l1] followed by those of a run over [l2], and its counters are
    the sums of theirs. *)
Theorem source_folders_in_order (self : CodeMapGenerator)
    (fs : string → option Node) (now : string) (l1 l2 : list string) :
  emitted (run (with_src self (l1 ++ l2)) fs now).2
  = emitted (run (with_src self l1) fs now).2
    ++ emitted (run (with_src self l2) fs now).2
  ∧ stats (run (with_src self (l1 ++ l2)) fs now).2
    = stats_add (stats (run (with_src self l1) fs now).2)
                (stats (run (with_src self l2) fs now).2).
Proof.
  rewrite !run_spec. cbn [snd emitted stats].
  assert (∀ l, all_visited (with_src self l) fs
               = flat_map (root_visits self fs) l) as Hall by reflexivity.
  assert (∀ vs, records_of (with_src self l1) vs = records_of self vs) as Hr1
    by reflexivity.
  assert (∀ vs s, stats_after (with_src self l1) vs s = stats_after self vs s)
    as Hs1 by reflexivity.
  assert (∀ vs, records_of (with_src self l2) vs = records_of self vs) as Hr2
    by reflexivity.
  assert (∀ vs s, stats_after (with_src self l2) vs s = stats_after self vs s)
    as Hs2 by reflexivity.
  assert (∀ vs, records_of (with_src self (l1 ++ l2)) vs = records_of self vs)
    as Hr by reflexivity.
  assert (∀ vs s, stats_after (with_src self (l1 ++ l2)) vs s
                  = stats_after self vs s) as Hs by reflexivity.
  rewrite Hr, Hs, Hr1, Hs1, Hr2, Hs2, !Hall, flat_map_app.
  split; [apply records_of_app|].
  rewrite stats_after_app.
  rewrite <- (stats_add_initial_r
                (stats_after self (flat_map (root_visits self fs) l1)
                   initial_stats)) at 1.
  apply stats_after_add.
Qed.

(** ** The command line and the configuration files *)

(** X18.  A saved configuration comes back: when [save_config] can write
    its file, the dictionary it saves is the one [main] builds from the
    same arguments, and [load_config] with the saved name returns it,
    whatever else the configuration folder holds. *)
Theorem saved_config_round_trip (open_w : string → result unit)
    (dir dir' : ConfigDir) (args : Args) (config_name : option string)
    (config : ConfigDict) :
  save_config open_w dir args config_name = Ok (dir', config) →
  config = config_from_args args
  ∧ load_config dir' (saved_name config_name)
    = Returned (Some (config_from_args args)).
Proof.
  unfold save_config.
  destruct (open_w (saved_name config_name +:+ ".json")); [|discriminate].
  intros H. injection H as <- <-. split; [reflexivity|].
  unfold load_config. cbn [load_first].
  rewrite lookup_insert_eq.
  reflexivity.
Qed.

Lemma saved_config_round_trip_witness :
  let dir' := <["myapp.json" := JsonDict (saved_dict example_args)]>
                (<["myapp" := Broken (OtherException "old")]> ∅) in
  saved_dict example_args = config_from_args example_args
  ∧ load_config dir' (saved_name (Some "myapp"))
    = Returned (Some (config_from_args example_args)).
Proof.
  cbv zeta.
  apply (saved_config_round_trip (λ _, Ok tt)
           (<["myapp" := Broken (OtherException "old")]> ∅) _
           example_args (Some "myapp")).
  reflexivity.
Defined.

(** X19.  The default configuration a bare invocation picks up is the
    one [--config default] loads. *)
Theorem default_config_is_loaded_config (dir : ConfigDir) (d : ConfigDict) :
  check_default_config dir = Some d →
  load_config dir "default" = Returned (Some d).
Proof.
  unfold check_default_config, load_config. cbn [load_first].
  change ("default" +:+ ".json") with "default.json".
  destruct (dir !! "default.json") as [[d'|e]|]; [|discriminate..].
  intros H. injection H as <-. reflexivity.
Qed.

Lemma default_config_is_loaded_config_witness :
  load_config (<["default.json" := JsonDict (saved_dict example_args)]> ∅)
    "default"
  = Returned (Some (saved_dict example_args)).
Proof.
  apply default_config_is_loaded_config.
  unfold check_default_config. rewrite lookup_insert_eq. reflexivity.
Defined.

Lemma split_nonempty (c : ascii) (s : string) : PyStr.split c s ≠ [].
Proof.
  destruct s as [|a s]; [discriminate|]. cbn [PyStr.split].
  destruct (Ascii.eqb a c); [discriminate|].
  destruct (PyStr.split c s); discriminate.
Qed.

(** X20.  What the command line can and cannot set: the size limit of a
    generator built from arguments is always 10 MiB, it has at least one
    source folder, and its [folders] list is non-empty exactly when
    [--folders] was given a non-empty value. *)
Theorem command_line_generator (is_frozen : bool) (args : Args) :
  let self := init is_frozen (dict_config (config_from_args args)) in
  max_file_size self = 10485760
  ∧ src_folders self ≠ []
  ∧ (folders self ≠ [] ↔ ∃ s, arg_folders args = Some s ∧ s ≠ "").
Proof.
  cbv zeta. split; [reflexivity|]. split.
  { cbn. unfold src_or_default.
    destruct (arg_src args) as [[|x l]|]; discriminate. }
  cbn. unfold comma_list, given.
  destruct (arg_folders args) as [s|].
  - destruct (String.eqb s "") eqn:E.
    + apply String.eqb_eq in E. subst s. cbn. split; [congruence|].
      intros (s & Hs & Hne). congruence.
    + apply String.eqb_neq in E. cbn. split.
      * intros _. by exists s.
      * intros _. apply split_nonempty.
  - cbn. split; [congruence|]. intros (s & Hs & _). discriminate.
Qed.

(** ** Normalised paths *)

Lemma prefix_nil_l (s : string) : String.prefix "" s = true.
Proof. by destruct s. Qed.

Lemma contains_char_cons (c a : ascii) (s : string) :
  PyStr.contains (String c "") (String a s)
  = (if ascii_dec c a then true else false) || PyStr.contains (String c "") s.
Proof.
  cbn [PyStr.contains String.prefix].
  destruct (ascii_dec c a); [by rewrite prefix_nil_l|reflexivity].
Qed.

Lemma contains_char_nil (c : ascii) : PyStr.contains (String c "") "" = false.
Proof. reflexivity. Qed.

Lemma contains_char_app (c : ascii) (s t : string) :
  PyStr.contains (String c "") (s +:+ t)
  = PyStr.contains (String c "") s || PyStr.contains (String c "") t.
Proof.
  induction s as [|a s IH]; [by rewrite contains_char_nil|].
  change (String a s +:+ t) with (String a (s +:+ t)).
  rewrite !contains_char_cons, IH. by rewrite orb_assoc.
Qed.

Lemma replace_char_absent (a b : ascii) (s : string) :
  a ≠ b → PyStr.contains (String a "") (PyStr.replace_char a b s) = false.
Proof.
  intros Hab. induction s as [|c s IH]; [reflexivity|].
  cbn [PyStr.replace_char]. rewrite contains_char_cons, IH, orb_false_r.
  destruct (Ascii.eqb c a) eqn:E.
  - destruct (ascii_dec a b); [congruence|reflexivity].
  - apply Ascii.eqb_neq in E. destruct (ascii_dec a c); [congruence|reflexivity].
Qed.

(** X21.  Normalised paths use the forward slash only: neither a
    normalised configuration entry nor the path of a marker line contains
    a backslash. *)
Theorem normalized_has_no_backslash (path_str : string)
    (rel : PyPath.rel_path) :
  PyStr.contains "\" (normalize_path path_str) = false
  ∧ PyStr.contains "\" (normalize_rel rel) = false.
Proof.
  split; apply replace_char_absent; discriminate.
Qed.

Lemma replace_char_id (a b : ascii) (s : string) :
  PyStr.contains (String a "") s = false → PyStr.replace_char a b s = s.
Proof.
  induction s as [|c s IH]; [reflexivity|].
  rewrite contains_char_cons. intros H. apply orb_false_iff in H as [Hc Hs].
  cbn [PyStr.replace_char]. rewrite (IH Hs).
  destruct (Ascii.eqb c a) eqn:E; [|reflexivity].
  apply Ascii.eqb_eq in E. subst c.
  destruct (ascii_dec a a); [discriminate|congruence].
Qed.

Lemma replace_char_app (a b : ascii) (s t : string) :
  PyStr.replace_char a b (s +:+ t)
  = PyStr.replace_char a b s +:+ PyStr.replace_char a b t.
Proof.
  induction s as [|c s IH]; [reflexivity|].
  change (String c s +:+ t) with (String c (s +:+ t)).
  cbn [PyStr.replace_char]. rewrite IH. reflexivity.
Qed.

Lemma split_no_sep (c : ascii) (s : string) :
  PyStr.contains (String c "") s = false → PyStr.split c s = [s].
Proof.
  induction s as [|a s IH]; [reflexivity|].
  rewrite contains_char_cons. intros H. apply orb_false_iff in H as [Hc Hs].
  cbn [PyStr.split]. rewrite (IH Hs).
  destruct (Ascii.eqb a c) eqn:E; [|reflexivity].
  apply Ascii.eqb_eq in E. subst a.
  destruct (ascii_dec c c); [discriminate|congruence].
Qed.

Lemma split_app_sep (c : ascii) (s t : string) :
  PyStr.contains (String c "") s = false →
  PyStr.split c (s +:+ String c t) = s :: PyStr.split c t.
Proof.
  induction s as [|a s IH].
  - intros _. change ("" +:+ String c t) with (String c t).
    cbn [PyStr.split]. by rewrite Ascii.eqb_refl.
  - rewrite contains_char_cons. intros H. apply orb_false_iff in H as [Hc Hs].
    change (String a s +:+ String c t) with (String a (s +:+ String c t)).
    cbn [PyStr.split]. rewrite (IH Hs).
    destruct (Ascii.eqb a c) eqn:E; [|reflexivity].
    apply Ascii.eqb_eq in E. subst a.
    destruct (ascii_dec c c); [discriminate|congruence].
Qed.

Lemma concat_cons2 (sep x y : string) (l : list string) :
  String.concat sep (x :: y :: l) = x +:+ sep +:+ String.concat sep (y :: l).
Proof. reflexivity. Qed.

Lemma split_concat (c : ascii) (segs : list string) :
  segs ≠ [] →
  Forall (λ s, PyStr.contains (String c "") s = false) segs →
  PyStr.split c (String.concat (String c "") segs) = segs.
Proof.
  intros Hne Hall. induction Hall as [|x l Hx Hl IH]; [congruence|].
  destruct l as [|y l].
  - cbn [String.concat]. by apply split_no_sep.
  - rewrite concat_cons2.
    change (String c "" +:+ String.concat (String c "") (y :: l))
      with (String c (String.concat (String c "") (y :: l))).
    rewrite (split_app_sep c x _ Hx). f_equal. apply IH. discriminate.
Qed.

Lemma contains_concat (c : ascii) (sep : string) (segs : list string) :
  PyStr.contains (String c "") sep = false →
  Forall (λ s, PyStr.contains (String c "") s = false) segs →
  PyStr.contains (String c "") (String.concat sep segs) = false.
Proof.
  intros Hsep Hall. induction Hall as [|x l Hx Hl IH]; [reflexivity|].
  destruct l as [|y l]; [exact Hx|].
  rewrite concat_cons2, !contains_char_app, Hx, Hsep, IH. reflexivity.
Qed.

Lemma leading_slashes_other (a : ascii) (s : string) :
  a ≠ "/"%char → PyPath.leading_slashes (String a s) = O.
Proof.
  intros Ha. destruct a as [[] [] [] [] [] [] [] []];
    try reflexivity; congruence.
Qed.

Lemma root_of_relative (s : string) :
  s ≠ "" → PyStr.contains "/" s = false → PyPath.root_of s = "".
Proof.
  intros Hne Hc. destruct s as [|a s]; [congruence|].
  rewrite contains_char_cons in Hc. apply orb_false_iff in Hc as [Ha _].
  unfold PyPath.root_of. rewrite leading_slashes_other; [reflexivity|].
  intros ->. destruct (ascii_dec "/" "/"); [discriminate|congruence].
Qed.

Lemma concat_head (sep x : string) (l : list string) :
  ∃ rest, String.concat sep (x :: l) = x +:+ rest.
Proof.
  destruct l as [|y l].
  - exists "". cbn [String.concat]. by rewrite str_app_nil_r.
  - by eexists.
Qed.

Lemma root_of_concat (sep : string) (segs : list string) :
  segs ≠ [] → Forall clean_segment segs →
  PyPath.root_of (String.concat sep segs) = "".
Proof.
  intros Hne Hall. destruct Hall as [|x l (Hx & _ & Hs & _) _]; [congruence|].
  destruct (concat_head sep x l) as (rest & ->).
  destruct x as [|a x]; [congruence|].
  rewrite contains_char_cons in Hs. apply orb_false_iff in Hs as [Ha _].
  change (String a x +:+ rest) with (String a (x +:+ rest)).
  unfold PyPath.root_of. rewrite leading_slashes_other; [reflexivity|].
  intros ->. destruct (ascii_dec "/" "/"); [discriminate|congruence].
Qed.

Lemma filter_clean (segs : list string) :
  Forall clean_segment segs → List.filter PyPath.keep_segment segs = segs.
Proof.
  induction 1 as [|x l (Hx & Hd & _) _ IH]; [reflexivity|].
  cbn [List.filter]. unfold PyPath.keep_segment at 1.
  apply String.eqb_neq in Hx, Hd. rewrite Hx, Hd. cbn [negb andb].
  by rewrite IH.
Qed.

Lemma Forall_clean_slash (segs : list string) :
  Forall clean_segment segs →
  Forall (λ s, PyStr.contains "/" s = false) segs.
Proof.
  intros Hall. eapply Forall_impl; [exact Hall|].
  by intros s (_ & _ & H & _).
Qed.

Lemma Forall_clean_backslash (segs : list string) :
  Forall clean_segment segs →
  Forall (λ s, PyStr.contains "\" s = false) segs.
Proof.
  intros Hall. eapply Forall_impl; [exact Hall|].
  by intros s (_ & _ & _ & H).
Qed.

Lemma normalize_rel_clean (segs : PyPath.rel_path) :
  segs ≠ [] → Forall clean_segment segs →
  normalize_rel segs = String.concat "/" segs.
Proof.
  intros Hne Hall. unfold normalize_rel, PyPath.to_str.
  destruct segs as [|x l]; [congruence|].
  apply replace_char_id, contains_concat; [reflexivity|].
  by apply Forall_clean_backslash.
Qed.

Lemma normalize_path_slash (segs : list string) :
  segs ≠ [] → Forall clean_segment segs →
  normalize_path (String.concat "/" segs) = String.concat "/" segs.
Proof.
  intros Hne Hall. unfold normalize_path, PyPath.str_of_Path, PyPath.parse.
  rewrite (root_of_concat "/" segs Hne Hall).
  rewrite (split_concat "/" segs Hne (Forall_clean_slash _ Hall)).
  rewrite (filter_clean _ Hall).
  destruct segs as [|x l]; [congruence|].
  change ("" +:+ String.concat "/" (x :: l)) with (String.concat "/" (x :: l)).
  apply replace_char_id, contains_concat; [reflexivity|].
  by apply Forall_clean_backslash.
Qed.

Lemma replace_concat (segs : list string) :
  Forall clean_segment segs →
  PyStr.replace_char "\" "/" (String.concat "\" segs) = String.concat "/" segs.
Proof.
  induction 1 as [|x l (_ & _ & _ & Hx) Hl IH]; [reflexivity|].
  destruct l as [|y l].
  - cbn [String.concat]. by apply replace_char_id.
  - rewrite !concat_cons2, !replace_char_app, IH.
    by rewrite (replace_char_id _ _ x Hx).
Qed.

Lemma backslash_path_one_segment (segs : list string) :
  segs ≠ [] → Forall clean_segment segs →
  PyPath.keep_segment (String.concat "\" segs) = true.
Proof.
  intros Hne Hall. unfold PyPath.keep_segment.
  destruct Hall as [|x l (Hx & Hd & _) _]; [congruence|].
  destruct l as [|y l].
  - cbn [String.concat]. apply String.eqb_neq in Hx, Hd. by rewrite Hx, Hd.
  - rewrite concat_cons2. destruct x as [|a x]; [congruence|].
    generalize (String.concat "\" (y :: l)). intros rest.
    change (String a x +:+ "\" +:+ rest)
      with (String a (x +:+ String "\" rest)).
    assert (String a (x +:+ String "\" rest) ≠ "") as H1 by discriminate.
    assert (String a (x +:+ String "\" rest) ≠ ".") as H2.
    { intros H. injection H as _ H. destruct x; discriminate H. }
    apply String.eqb_neq in H1, H2. by rewrite H1, H2.
Qed.

Lemma normalize_path_backslash (segs : list string) :
  segs ≠ [] → Forall clean_segment segs →
  normalize_path (String.concat "\" segs) = String.concat "/" segs.
Proof.
  intros Hne Hall. unfold normalize_path, PyPath.str_of_Path, PyPath.parse.
  rewrite (root_of_concat "\" segs Hne Hall).
  rewrite split_no_sep.
  2:{ apply contains_concat; [reflexivity|]. by apply Forall_clean_slash. }
  cbn [List.filter]. rewrite (backslash_path_one_segment segs Hne Hall).
  cbn [String.concat].
  change ("" +:+ String.concat "\" segs) with (String.concat "\" segs).
  by apply replace_concat.
Qed.

(** X22.  A configuration entry that spells the relative path of a
    directory, with forward slashes or with backslashes, normalises to
    that directory's normalised path; as an entry of [except_folders] it
    prunes the directory. *)
Theorem path_entry_matches_directory (self : CodeMapGenerator)
    (segs : PyPath.rel_path) (f : string) :
  segs ≠ [] → Forall clean_segment segs →
  f = String.concat "/" segs ∨ f = String.concat "\" segs →
  normalize_path f = normalize_rel segs
  ∧ (f ∈ except_folders self → should_process_folder self segs = false).
Proof.
  intros Hne Hall Hf.
  assert (normalize_path f = normalize_rel segs) as Heq.
  { rewrite (normalize_rel_clean segs Hne Hall).
    destruct Hf as [-> | ->].
    - by apply normalize_path_slash.
    - by apply normalize_path_backslash. }
  split; [exact Heq|]. intros Hin.
  apply folder_rule_b. exists f. split; [exact Hin|].
  rewrite Heq. apply prefix_refl.
Qed.

Lemma app_models_clean : Forall clean_segment ["app"; "models"].
Proof.
  repeat constructor; try discriminate; reflexivity.
Defined.

Lemma path_entry_matches_directory_witness :
  let self := init false (except_config ["app\models"] []) in
  normalize_path "app\models" = normalize_rel ["app"; "models"]
  ∧ ("app\models" ∈ except_folders self →
     should_process_folder self ["app"; "models"] = false).
Proof.
  cbv zeta.
  apply (path_entry_matches_directory
           (init false (except_config ["app\models"] []))
           ["app"; "models"] "app\models").
  - discriminate.
  - exact app_models_clean.
  - right. reflexivity.
Defined.

(** ** Files that cannot be stat'ed, and line endings *)



Lemma translate_newlines_no_cr (s : string) :
  PyStr.contains PyStr.CR (Codec.translate_newlines s) = false
  ∧ ∀ c, PyStr.contains PyStr.CR (Codec.translate_newlines (String c s))
         = false.
Proof.
  unfold PyStr.CR. induction s as [|a s [IH1 IH2]].
  - split; [reflexivity|]. intros c. cbn [Codec.translate_newlines].
    destruct (Ascii.eqb c "013") eqn:E; [reflexivity|].
    rewrite contains_char_cons. apply Ascii.eqb_neq in E.
    destruct (ascii_dec "013" c); [congruence|reflexivity].
  - split; [apply IH2|]. intros c.
    assert (∀ x, PyStr.contains (String "013" "") x = false →
                 PyStr.contains (String "013" "") (String "010" x) = false)
      as Hlf.
    { intros x Hx. rewrite contains_char_cons, Hx. reflexivity. }
    cbn [Codec.translate_newlines].
    destruct (Ascii.eqb c "013") eqn:E.
    + destruct (Ascii.eqb a "010") eqn:Ea.
      * apply Ascii.eqb_eq in Ea. subst a. by apply Hlf.
      * specialize (IH2 a).
        destruct a as [[] [] [] [] [] [] [] []]; try discriminate Ea;
          by apply Hlf.
    + rewrite contains_char_cons. apply Ascii.eqb_neq in E.
      destruct (ascii_dec "013" c); [congruence|].
      cbn [orb]. apply IH2.
Qed.

(** X24.  Text mode leaves no carriage return: the content emitted for a
    file that can be read never contains one, the line feed added at the
    end included. *)
Theorem text_has_no_carriage_return (bs : list byte) :
  PyStr.contains PyStr.CR
    (terminated (read_outcome (Codec.open_read (Readable bs))).1) = false.
Proof.
  rewrite read_outcome_readable. cbn [fst]. unfold text_of, terminated.
  destruct (negb (PyStr.endswith _ PyStr.LF)).
  - unfold PyStr.CR. rewrite contains_char_app.
    fold PyStr.CR. rewrite (proj1 (translate_newlines_no_cr _)).
    reflexivity.
  - apply translate_newlines_no_cr.
Qed.

(** ** The default mode *)

Lemma prefix_app_true (sub s t : string) :
  String.prefix sub s = true → String.prefix sub (s +:+ t) = true.
Proof.
  revert sub. induction s as [|b s IH]; intros sub.
  - destruct sub; [intros _; apply prefix_nil_l|discriminate].
  - destruct sub as [|a sub]; [reflexivity|].
    change (String b s +:+ t) with (String b (s +:+ t)).
    cbn [String.prefix]. destruct (ascii_dec a b); [apply IH|discriminate].
Qed.

Lemma contains_app_l (sub s t : string) :
  PyStr.contains sub s = true → PyStr.contains sub (s +:+ t) = true.
Proof.
  induction s as [|b s IH].
  - cbn [PyStr.contains]. rewrite orb_false_r. intros H.
    destruct sub; [|discriminate].
    change ("" +:+ t) with t. destruct t; reflexivity.
  - change (String b s +:+ t) with (String b (s +:+ t)).
    cbn [PyStr.contains]. intros H. apply orb_true_iff in H as [H|H].
    + apply orb_true_iff. left.
      exact (prefix_app_true sub (String b s) t H).
    + apply orb_true_iff. right. exact (IH H).
Qed.

Lemma concat_app_sep (sep : string) (p : list string) (y : string)
    (k : list string) :
  p ≠ [] →
  String.concat sep (p ++ y :: k)
  = String.concat sep p +:+ sep +:+ String.concat sep (y :: k).
Proof.
  intros Hne. induction p as [|x p IH]; [congruence|].
  destruct p as [|x2 p].
  - reflexivity.
  - change ((x :: x2 :: p) ++ y :: k) with (x :: x2 :: (p ++ y :: k)).
    rewrite concat_cons2.
    change (x2 :: p ++ y :: k) with ((x2 :: p) ++ y :: k).
    rewrite IH by discriminate.
    rewrite concat_cons2. by rewrite !str_app_assoc.
Qed.

Lemma normalize_rel_prefix (p dir : PyPath.rel_path) :
  p ≠ [] → p `prefix_of` dir →
  ∃ rest, normalize_rel dir = normalize_rel p +:+ rest.
Proof.
  intros Hne [k ->]. destruct k as [|y k].
  - exists "". by rewrite app_nil_r, str_app_nil_r.
  - unfold normalize_rel, PyPath.to_str.
    destruct p as [|x p]; [congruence|]. cbn [app].
    change (x :: p ++ y :: k) with ((x :: p) ++ y :: k).
    rewrite concat_app_sep by discriminate.
    rewrite replace_char_app. by eexists.
Qed.

Lemma has_skip_segment_prefix (p dir : PyPath.rel_path) :
  p `prefix_of` dir → has_skip_segment p = true →
  has_skip_segment dir = true.
Proof.
  intros [k ->] H. unfold has_skip_segment in *.
  destruct (proj1 (set_any_spec _ _) H) as (skip & Hin & Hp).
  apply (proj2 (set_any_spec _ _)). exists skip. split; [exact Hin|].
  apply (proj2 (in_list_spec _ _)). apply elem_of_app. left.
  exact (proj1 (in_list_spec _ _) Hp).
Qed.

Lemma default_mode_descends (self : CodeMapGenerator)
    (dir : PyPath.rel_path) :
  folders self = [] → except_folders self = ∅ →
  has_skip_segment dir = false →
  PyStr.contains "codemapper/" (normalize_rel dir) = false →
  should_process_folder self dir = true.
Proof.
  intros Hf He Hskip Hsub. unfold should_process_folder.
  destruct (PyStr.in_list "codemapper" dir) eqn:Hin.
  { exfalso. assert (has_skip_segment dir = true) as Hc; [|congruence].
    apply (proj2 (set_any_spec _ _)). exists "codemapper".
    split; [|exact Hin].
    apply (proj1 (in_set_spec _ _)). vm_compute. reflexivity. }
  rewrite Hsub. cbn [orb].
  destruct (PyStr.set_any _ (except_folders self)) eqn:Hex.
  { exfalso. destruct (proj1 (set_any_spec _ _) Hex) as (f & Hin' & _).
    rewrite He in Hin'. exact (not_elem_of_empty f Hin'). }
  rewrite Hskip, Hf. reflexivity.
Qed.

(** X25.  In the default mode, with no [folders] and no
    [except_folders], a directory is reached whenever no segment of its
    path is a built-in skip name and its normalised path does not contain
    [codemapper/]: nothing else stops the walk. *)
Theorem default_mode_reaches (self : CodeMapGenerator)
    (dir : PyPath.rel_path) :
  folders self = [] → except_folders self = ∅ →
  has_skip_segment dir = false →
  PyStr.contains "codemapper/" (normalize_rel dir) = false →
  descended self dir.
Proof.
  intros Hf He Hskip Hsub. split.
  { by apply default_mode_descends. }
  intros p Hp Hpre. apply default_mode_descends; [exact Hf|exact He| |].
  - destruct (has_skip_segment p) eqn:E; [|reflexivity].
    pose proof (has_skip_segment_prefix p dir Hpre E) as Hc.
    exfalso. exact (Bool.diff_true_false (eq_trans (eq_sym Hc) Hskip)).
  - destruct (PyStr.contains "codemapper/" (normalize_rel p)) eqn:E;
      [|reflexivity].
    destruct (normalize_rel_prefix p dir Hp Hpre) as (rest & Heq).
    pose proof (contains_app_l _ _ rest E) as Hc. rewrite <- Heq in Hc.
    exfalso. exact (Bool.diff_true_false (eq_trans (eq_sym Hc) Hsub)).
Qed.

Lemma default_mode_reaches_witness :
  descended (init false default_config) ["app"; "models"]
  ∧ should_process_folder (init false default_config) ["mycodemapper"; "sub"]
    = false.
Proof.
  split; [|vm_compute; reflexivity].
  apply default_mode_reaches.
  - reflexivity.
  - reflexivity.
  - vm_compute. reflexivity.
  - vm_compute. reflexivity.
Defined.

(** ** The summary and the records *)

Lemma text_records_app a b :
  text_records (a ++ b) = text_records a + text_records b.
Proof.
  unfold text_records. rewrite List.filter_app, length_app. lia.
Qed.

Lemma marker_records_app a b :
  marker_records (a ++ b) = marker_records a + marker_records b.
Proof.
  unfold marker_records. rewrite List.filter_app, length_app. lia.
Qed.

Lemma file_stats_records self root file s :
  text_files (file_stats self root file s)
  = text_files s + text_records (file_records self root file)
  ∧ binary_files (file_stats self root file s)
    = binary_files s + marker_records (file_records self root file).
Proof.
  unfold file_stats, file_records, text_records, marker_records.
  destruct (should_process_file self _ _).
  - destruct (st_size file.2);
      (destruct (is_text_file self _); [destruct (read_outcome _).2|]);
      cbn [List.filter is_text_record kind negb length add_text add_binary
           add_error add_size text_files binary_files]; lia.
  - cbn [List.filter length add_skipped text_files binary_files]. lia.
Qed.

Lemma stats_after_records self vs s :
  text_files (stats_after self vs s)
  = text_files s + text_records (records_of self vs)
  ∧ binary_files (stats_after self vs s)
    = binary_files s + marker_records (records_of self vs).
Proof.
  revert s. induction vs as [|v vs IH]; intros s.
  { change (stats_after self [] s) with s.
    change (records_of self []) with (@nil OutputRecord).
    unfold text_records, marker_records. cbn [List.filter length]. lia. }
  change (stats_after self (v :: vs) s)
    with (stats_after self vs (file_stats self v.1 v.2 s)).
  change (records_of self (v :: vs))
    with (file_records self v.1 v.2 ++ records_of self vs).
  rewrite text_records_app, marker_records_app.
  destruct (IH (file_stats self v.1 v.2 s)) as [-> ->].
  destruct (file_stats_records self v.1 v.2 s) as [-> ->]. lia.
Qed.

(** X26.  The summary agrees with the map: after a run [text_files] is
    the number of records emitted with content and [binary_files] the
    number of markers, so the two add up to the number of records. *)
Theorem summary_matches_records (self : CodeMapGenerator)
    (fs : string → option Node) (now : string) :
  let st := (run self fs now).2 in
  text_files (stats st) = text_records (emitted st)
  ∧ binary_files (stats st) = marker_records (emitted st)
  ∧ text_files (stats st) + binary_files (stats st)
    = Z.of_nat (length (emitted st)).
Proof.
  cbv zeta. rewrite run_spec. cbn [snd stats emitted].
  destruct (stats_after_records self (all_visited self fs) initial_stats)
    as [Ht Hb].
  cbn [initial_stats text_files binary_files] in Ht, Hb.
  rewrite Z.add_0_l in Ht, Hb. split; [exact Ht|]. split; [exact Hb|].
  rewrite Ht, Hb. unfold text_records, marker_records.
  generalize (records_of self (all_visited self fs)). intros rs.
  induction rs as [|r rs IH]; [reflexivity|].
  cbn [List.filter length]. destruct (is_text_record r); cbn [negb length]; lia.
Qed.

(** ** Each file once *)

Section Once.

Variable self : CodeMapGenerator.







End Once.



